(** * MidasBot decision core: a shallow embedding of [MidasBot_Full.py]

    The development follows the source file top to bottom: the indicator
    functions ([ema_list], [rsi_list], [atrp_list]), the regime classifier
    ([_regime]), the fee/edge check ([_net_ok]), the ladder planner
    ([_plan_grid]), the paper-fill accountant ([_exec_paper]), one cycle
    ([_tick]) and the scheduler loop ([_run_loop]), then the helpers of
    start-up ([clamp], [resolve_pair], the paper-or-live decision of [main]).

    Conventions.
    - A Python [float] is read as an exact rational ([Q]); equations between
      numbers are stated with [==].  Where a yes/no outcome at a literal
      input is at stake (the edge check at its threshold, the classifier at
      the edge of a band), module [Binary64] re-evaluates the same source
      expressions on IEEE binary64 numbers (the kernel's [PrimFloat]), bit
      for bit as CPython does.
      A value that a loop feeds back into itself is kept in lowest terms
      ([Qred]), which changes how the fraction is written, not the number.
    - A Python exception is a value of [exn]; a function that can raise
      returns a [result].  Divisions whose divisor the source guards
      ([max(x, 1e-9)], [x or 1.0], an early [return]) are plain divisions;
      every other division goes through [pydiv], which raises
      [ZeroDivisionError] on a zero divisor.
    - The bot object is a record threaded through the methods; the fee cache
      is a dictionary ([gmap string Q]) because the source tests it for a key.
    - The exchange client, the clock and the ledger file are outside the
      program: one [exchange_reply] record per cycle carries what they
      answered.  Of [time.sleep] the model keeps what reaches the program,
      the exception raised on a length that does not fit. *)

From stdpp Require Import base option list strings gmap.
From Stdlib Require Import Ascii ZArith QArith Qround Qabs Qminmax Lqa Lia.
From Stdlib Require PrimFloat Uint63.

Open Scope Q_scope.

(** ** Exceptions and fallible results *)

Inductive exn : Type :=
  | ZeroDivisionError
  | IndexError
  | OSError
  | NetworkError
  | OverflowError.

Inductive result (A : Type) : Type :=
  | Ok (a : A)
  | Raise (e : exn).

Arguments Ok {A} a.
Arguments Raise {A} e.

Definition bind {A B : Type} (r : result A) (k : A -> result B) : result B :=
  match r with
  | Ok a => k a
  | Raise e => Raise e
  end.

Notation "'let!' x ':=' r 'in' k" := (bind r (fun x => k))
  (at level 10, x name, r at level 100, k at level 200, only parsing).

(** ** Comparisons and arithmetic of Python floats, read over [Q] *)

Definition Qleb (x y : Q) : bool := Qle_bool x y.
Definition Qltb (x y : Q) : bool := negb (Qle_bool y x).
Definition Qeqb (x y : Q) : bool := Qeq_bool x y.

(** [x / y]: raises on a zero divisor, as float division does in Python. *)
Definition pydiv (x y : Q) : result Q :=
  if Qeqb y 0 then Raise ZeroDivisionError else Ok (x / y).

(** [seq[-1]]: the last item, [IndexError] on an empty list. *)
Definition last_item {A : Type} (l : list A) : result A :=
  match List.rev l with
  | [] => Raise IndexError
  | x :: _ => Ok x
  end.

(** Round half to even to an integer, then [round(x, ndigits)]. *)
Definition round_half_even (x : Q) : Z :=
  let f := Qfloor x in
  match Qcompare (x - inject_Z f) (1 # 2) with
  | Lt => f
  | Gt => (f + 1)%Z
  | Eq => if Z.even f then f else (f + 1)%Z
  end.

Definition pow10 (ndigits : nat) : Q := inject_Z (10 ^ Z.of_nat ndigits).

Definition round (x : Q) (ndigits : nat) : Q :=
  inject_Z (round_half_even (x * pow10 ndigits)) / pow10 ndigits.

(** ** Candles *)

(** One row of [fetch_ohlcv]: [[ts, open, high, low, close, volume]];
    [c[4]] is the close. *)
Record candle : Type := Candle {
  ts : Q;
  open_px : Q;
  high : Q;
  low : Q;
  close : Q;
  volume : Q
}.

(** ** Indicators *)

(** One smoothing step, [s = (v - s) * k + s].  [Qred] writes the fraction
    in lowest terms; it is the same number ([Qred_correct]). *)
Definition smooth (k s v : Q) : Q := Qred ((v - s) * k + s).

(** The loop [for v in values[1:]: s = (v - s) * k + s; ema.append(s)]. *)
Fixpoint ema_go (k s : Q) (vs : list Q) : list Q :=
  match vs with
  | [] => []
  | v :: vs' => let s' := smooth k s v in s' :: ema_go k s' vs'
  end.

Definition ema_list (values : list Q) (n : Z) : list Q :=
  match values with
  | [] => []
  | v0 :: rest =>
      if (n <=? 1)%Z then values
      else v0 :: ema_go (2 / (inject_Z n + 1)) v0 rest
  end.

(** One turn of the loop of [rsi_list]: [d = values[i] - values[i-1]],
    added to the gains when [d >= 0], else subtracted from the losses. *)
Definition rsi_step (values : list Q) (acc : Q * Q) (i : nat) : Q * Q :=
  let d := nth i values 0 - nth (i - 1) values 0 in
  if Qleb 0 d then (fst acc + d, snd acc) else (fst acc, snd acc - d).

Definition rsi_sums (values : list Q) (n : nat) : Q * Q :=
  fold_left (rsi_step values) (seq 1 n) (0, 0).

Definition rsi_list (values : list Q) (n : nat) : result (option Q) :=
  if (length values <? n + 1)%nat then Ok None
  else
    let gains := fst (rsi_sums values n) in
    let losses := snd (rsi_sums values n) in
    let! avg_gain := pydiv gains (inject_Z (Z.of_nat n)) in
    let! avg_loss := (if Qltb 0 losses then pydiv losses (inject_Z (Z.of_nat n))
                 else Ok 0) in
    if Qeqb avg_loss 0 then Ok (Some 100)
    else
      let! rs := pydiv avg_gain avg_loss in
      let! q := pydiv 100 (1 + rs) in
      Ok (Some (100 - q)).

(** The true ranges of [ohlcv[1:]], [prev_close] carried along. *)
Fixpoint true_ranges (prev_close : Q) (rows : list candle) : list Q :=
  match rows with
  | [] => []
  | c :: rows' =>
      Qmax (Qmax (high c - low c) (Qabs (high c - prev_close)))
           (Qabs (low c - prev_close))
      :: true_ranges (close c) rows'
  end.

Definition atrp_list (ohlcv : list candle) (n : nat) : result Q :=
  if (length ohlcv <? n + 1)%nat then Ok 0
  else
    match ohlcv with
    | [] => Raise IndexError
    | c0 :: rows =>
        match true_ranges (close c0) rows with
        | [] => Raise IndexError
        | t0 :: trs =>
            let k := 2 / (inject_Z (Z.of_nat n) + 1) in
            let s := fold_left (smooth k) trs t0 in
            let c := close (List.last ohlcv c0) in
            let last_close := if Qeqb c 0 then 1 else c in
            Ok (s / last_close)
        end
    end.

(** ** Regime classifier *)

Inductive regime : Type := SCOUT | LUNCHBOX | REGULAR | AFTERBURNER | DIP.

Global Instance regime_eq_dec : EqDecision regime.
Proof. solve_decision. Defined.

(** The chain of [if]s that ends [_regime] (source lines 229-240). *)
Definition regime_rules (slope r atrp : Q) : regime :=
  if Qltb 0.0008 slope && Qltb 55 r && Qltb 0.003 atrp then AFTERBURNER
  else if Qltb (Qabs slope) 0.0004 && (Qltb 35 r && Qltb r 65) && Qltb atrp 0.005
  then LUNCHBOX
  else if Qltb (Qabs slope) 0.0015 && Qleb 0.003 atrp then REGULAR
  else if Qltb r 32 && Qltb (-0.002) slope then DIP
  else SCOUT.

Definition _regime (ohlcv : list candle) : result regime :=
  if (length ohlcv <? 50)%nat then Ok SCOUT
  else
    let closes := map close ohlcv in
    let! ema_fast := last_item (ema_list closes 12) in
    let! ema_slow := last_item (ema_list closes 48) in
    let! slope := pydiv (ema_fast - ema_slow) (ema_slow + 1e-12) in
    let! atrp := atrp_list ohlcv 14 in
    let! r := rsi_list closes 14 in
    match r with
    | None => Ok SCOUT
    | Some r => Ok (regime_rules slope r atrp)
    end.

(** ** The bot object *)

Inductive order_side : Type := buy | sell.

Global Instance order_side_eq_dec : EqDecision order_side.
Proof. solve_decision. Defined.

(** An element of the planner's list: [(side, qty, limit_price)]. *)
Definition order : Type := order_side * Q * Q.

Inductive position : Type := LONG | SHORT.

(** One row of the ledger file, by the keyword names of [_log_trade]; the
    clock column [utc], the column [exchange] and the free-text [notes] are
    left out. *)
Record trade_record : Type := TradeRecord {
  bot : regime;
  symbol : string;
  side : position;
  qty : Q;
  entry_px : Q;
  exit_px : Q;
  gross_pct : Q;
  net_pct : Q;
  fee_pct_rt : Q;
  pnl_usd : Q;
  runtime_sec : Z
}.

(** [last_msg], kept as data instead of formatted text. *)
Inductive status : Type :=
  | NoMsg
  | PriceErr (e : exn)
  | TickInfo (r : regime) (price bal maker taker : Q)
  | TickErr (e : exn).

Record MidasBot : Type := Bot {
  pair : string;
  paper : bool;
  budget_usd : Q;
  grids : Z;
  spacing : Q;
  min_net : Q;
  tick : Z;
  stop_flag : bool;
  phase : regime;
  last_msg : status;
  fees : gmap string Q;
  balance_quote : Q;
  log_csv : list trade_record
}.

Definition set_stop_flag (b : MidasBot) (v : bool) : MidasBot :=
  Bot (pair b) (paper b) (budget_usd b) (grids b) (spacing b) (min_net b)
      (tick b) v (phase b) (last_msg b) (fees b) (balance_quote b) (log_csv b).

Definition set_phase (b : MidasBot) (v : regime) : MidasBot :=
  Bot (pair b) (paper b) (budget_usd b) (grids b) (spacing b) (min_net b)
      (tick b) (stop_flag b) v (last_msg b) (fees b) (balance_quote b)
      (log_csv b).

Definition set_last_msg (b : MidasBot) (v : status) : MidasBot :=
  Bot (pair b) (paper b) (budget_usd b) (grids b) (spacing b) (min_net b)
      (tick b) (stop_flag b) (phase b) v (fees b) (balance_quote b)
      (log_csv b).

Definition set_fees (b : MidasBot) (v : gmap string Q) : MidasBot :=
  Bot (pair b) (paper b) (budget_usd b) (grids b) (spacing b) (min_net b)
      (tick b) (stop_flag b) (phase b) (last_msg b) v (balance_quote b)
      (log_csv b).

Definition set_balance_quote (b : MidasBot) (v : Q) : MidasBot :=
  Bot (pair b) (paper b) (budget_usd b) (grids b) (spacing b) (min_net b)
      (tick b) (stop_flag b) (phase b) (last_msg b) (fees b) v (log_csv b).

Definition set_log_csv (b : MidasBot) (v : list trade_record) : MidasBot :=
  Bot (pair b) (paper b) (budget_usd b) (grids b) (spacing b) (min_net b)
      (tick b) (stop_flag b) (phase b) (last_msg b) (fees b)
      (balance_quote b) v.

(** [self.fees[k]]; the keys ["maker"] and ["taker"] are present from
    [__init__] on (lemma [fees_keys_tick] below). *)
Definition rate (f : gmap string Q) (k : string) : Q := default 0 (f !! k).

Definition is_rate_key (k : string) : bool :=
  bool_decide (k = "maker"%string) || bool_decide (k = "taker"%string).

(** [__init__]: the default schedule, then
    [self.fees.update({k: float(v) for k, v in manual_fees.items()
                       if k in ("maker", "taker")})]. *)
Definition __init__ (pair : string) (paper : bool) (budget_usd : Q)
    (grids : Z) (spacing min_net : Q) (tick : Z)
    (manual_fees : option (gmap string Q)) : MidasBot :=
  let defaults : gmap string Q :=
    <["maker"%string := 0.0010]> (<["taker"%string := 0.0015]> ∅) in
  let fees :=
    match manual_fees with
    | Some m => filter (fun kv => is_rate_key (fst kv) = true) m ∪ defaults
    | None => defaults
    end in
  Bot pair paper budget_usd grids spacing min_net tick false SCOUT NoMsg
      fees 0 [].

(** ** What the outside world answers during one cycle *)

Record exchange_reply : Type := Reply {
  (** [fetch_trading_fee(pair)]: a dictionary, or an exception. *)
  fetch_trading_fee : result (gmap string Q);
  (** [market(pair)], the metadata fallback. *)
  market : result (gmap string Q);
  (** [fetch_balance().get("free", {})]. *)
  fetch_balance : result (gmap string Q);
  (** [fetch_ticker(pair)]: its ["last"] and ["close"] entries. *)
  fetch_ticker : result (option Q * option Q);
  (** [fetch_ohlcv(pair, "5m", 200)]. *)
  fetch_ohlcv : result (list candle);
  (** Whether appending to the ledger file raises. *)
  log_error : option exn
}.

(** ** I/O helpers *)

Definition _log_trade (b : MidasBot) (ex : exchange_reply) (row : trade_record)
    : MidasBot * option exn :=
  match log_error ex with
  | Some e => (b, Some e)
  | None => (set_log_csv b (log_csv b ++ [row]), None)
  end.

(** [x or y] on optional numbers: [None] and [0] are falsy. *)
Definition truthy (x : option Q) : bool :=
  match x with
  | Some v => negb (Qeqb v 0)
  | None => false
  end.

Definition _price (b : MidasBot) (ex : exchange_reply) : MidasBot * Q :=
  match fetch_ticker ex with
  | Ok (last, close) =>
      (b, if truthy last then default 0 last
          else if truthy close then default 0 close
          else 0)
  | Raise e => (set_last_msg b (PriceErr e), 0)
  end.

Definition _fees_update (b : MidasBot) (ex : exchange_reply) : MidasBot :=
  if bool_decide (is_Some (fees b !! "manual"%string)) then b
  else
    match fetch_trading_fee ex with
    | Ok f =>
        let m := default (rate (fees b) "maker") (f !! "maker"%string) in
        let t := default (rate (fees b) "taker") (f !! "taker"%string) in
        set_fees b (<["maker"%string := m]> (<["taker"%string := t]> ∅))
    | Raise _ =>
        match market ex with
        | Ok mkt =>
            let f1 := <["maker"%string :=
                        default (rate (fees b) "maker") (mkt !! "maker"%string)]>
                      (fees b) in
            let f2 := <["taker"%string :=
                        default (rate f1 "taker") (mkt !! "taker"%string)]> f1 in
            set_fees b f2
        | Raise _ => b
        end
    end.

(** [s.split("/")]. *)
Fixpoint split_slash (cur : string) (s : string) : list string :=
  match s with
  | EmptyString => [String.rev cur]
  | String c s' =>
      if Ascii.eqb c "/"%char then String.rev cur :: split_slash EmptyString s'
      else split_slash (String c cur) s'
  end.

Definition _balances_update (b : MidasBot) (ex : exchange_reply)
    : MidasBot * option exn :=
  match split_slash EmptyString (pair b) !! 1%nat with
  | None => (b, Some IndexError)
  | Some quote =>
      match fetch_balance ex with
      | Ok free => (set_balance_quote b (default 0 (free !! quote)), None)
      | Raise _ => (set_balance_quote b 0, None)
      end
  end.

Definition _ohlcv (ex : exchange_reply) : list candle :=
  match fetch_ohlcv ex with
  | Ok rows => rows
  | Raise _ => []
  end.

(** ** Brain *)

Definition _net_ok (b : MidasBot) (gross_step : Q) : bool :=
  let net := gross_step - (rate (fees b) "maker" * 2 + 0.0002) in
  Qleb (min_net b) net.

(** The body of the loop of [_plan_grid] for one [i] of [range(self.grids)]. *)
Definition grid_level (b : MidasBot) (price per : Q) (i : nat) : list order :=
  let n := inject_Z (Z.of_nat i + 1) in
  let down := price * (1 - spacing b * n) in
  let up := price * (1 + spacing b * n) in
  let buy_qty := per / Qmax down 1e-9 in
  let sell_qty := per / Qmax up 1e-9 in
  let step_buy := (price - down) / Qmax price 1e-9 in
  let step_sell := (up - price) / Qmax price 1e-9 in
  (if Qltb 0 buy_qty && _net_ok b step_buy
   then [(buy, round buy_qty 8, round down 4)] else [])
  ++
  (if Qltb 0 sell_qty && _net_ok b step_sell
   then [(sell, round sell_qty 8, round up 4)] else []).

Definition _plan_grid (b : MidasBot) (price : Q) : list order :=
  let budget := Qmin (budget_usd b) (balance_quote b) in
  if Qleb budget 0 || (grids b <=? 0)%Z || Qleb price 0 then []
  else
    let per := budget / inject_Z (grids b) in
    flat_map (grid_level b price per) (seq 0 (Z.to_nat (grids b))).

(** The row [_exec_paper] hands to [_log_trade]. *)
Definition paper_fill (b : MidasBot) (sd : order_side) (q px : Q) (tag : regime)
    : result trade_record :=
  let move := if bool_decide (tag <> AFTERBURNER) then spacing b
              else spacing b * 1.5 in
  let maker := rate (fees b) "maker" in
  match sd with
  | buy =>
      let tp := px * (1 + move) in
      let! gross := pydiv (tp - px) px in
      let net := gross - (maker * 2 + 0.0002) in
      let pnl := q * (tp - px) - q * px * maker - q * tp * maker in
      Ok (TradeRecord tag (pair b) LONG q px tp gross net maker pnl (tick b))
  | sell =>
      let tp := px * (1 - move) in
      let! gross := pydiv (px - tp) px in
      let net := gross - (maker * 2 + 0.0002) in
      let pnl := q * (px - tp) - q * px * maker - q * tp * maker in
      Ok (TradeRecord tag (pair b) SHORT q px tp gross net maker pnl (tick b))
  end.

Definition _exec_paper (b : MidasBot) (ex : exchange_reply) (sd : order_side)
    (q px : Q) (tag : regime) : MidasBot * option exn :=
  match paper_fill b sd q px tag with
  | Ok row => _log_trade b ex row
  | Raise e => (b, Some e)
  end.

(** ** Loop *)

(** The orders a cycle draws from the planner for its regime. *)
Definition regime_orders (b : MidasBot) (r : regime) (price : Q) : list order :=
  match r with
  | LUNCHBOX => _plan_grid b price
  | REGULAR => _plan_grid b price
  | AFTERBURNER =>
      filter (fun o => fst (fst o) = sell) (_plan_grid b price)
  | DIP => filter (fun o => fst (fst o) = buy) (_plan_grid b price)
  | SCOUT => []
  end.

(** [for side, qty, px in orders[:2]: ...], stopped by the first exception. *)
Fixpoint exec_orders (b : MidasBot) (ex : exchange_reply) (tag : regime)
    (orders : list order) : MidasBot * option exn :=
  match orders with
  | [] => (b, None)
  | (sd, q, px) :: rest =>
      if paper b then
        match _exec_paper b ex sd q px tag with
        | (b', None) => exec_orders b' ex tag rest
        | (b', Some e) => (b', Some e)
        end
      else exec_orders b ex tag rest
  end.

Definition _tick (b : MidasBot) (ex : exchange_reply) : MidasBot * option exn :=
  let b := _fees_update b ex in
  match _balances_update b ex with
  | (b, Some e) => (b, Some e)
  | (b, None) =>
      let '(b, price) := _price b ex in
      let ohlcv := _ohlcv ex in
      match _regime ohlcv with
      | Raise e => (b, Some e)
      | Ok r =>
          let b := set_phase b r in
          let b := set_last_msg b
                     (TickInfo r price (balance_quote b)
                        (rate (fees b) "maker") (rate (fees b) "taker")) in
          if bool_decide (r = SCOUT) || Qleb (balance_quote b) 1e-6
             || Qleb price 0
          then (b, None)
          else exec_orders b ex r (take 2 (regime_orders b r price))
      end
  end.

(** One wake-up of the scheduler: what the exchange answers, and whether
    [stop()] is called before the loop tests [stop_flag] again. *)
Record cycle : Type := Cycle {
  reply : exchange_reply;
  stop_request : bool
}.

(** [time.sleep(secs)] for an [int]: CPython turns the seconds into a 64-bit
    count of nanoseconds and raises [OverflowError] when they do not fit,
    which is from 9223372037 seconds on.  The time that passes is outside
    the model. *)
Definition sleep (secs : Z) : option exn :=
  if (9223372037 <=? secs)%Z then Some OverflowError else None.

(** [try: self._tick()] with
    [except Exception as e: self.last_msg = f"tick err: ..."]. *)
Definition guarded_tick (b : MidasBot) (ex : exchange_reply) : MidasBot :=
  match _tick b ex with
  | (b', None) => b'
  | (b', Some e) => set_last_msg b' (TickErr e)
  end.

(** The body of the [while] of [_run_loop]: the guarded cycle, then
    [time.sleep(max(5, self.tick))], which stands outside the [try]: what it
    raises is the second component and leaves the loop.  A stop requested
    during the wake-up is seen once the sleep has returned. *)
Definition loop_body (b : MidasBot) (c : cycle) : MidasBot * option exn :=
  let b1 := guarded_tick b (reply c) in
  match sleep (Z.max 5 (tick b1)) with
  | Some e => (b1, Some e)
  | None => (if stop_request c then set_stop_flag b1 true else b1, None)
  end.

(** [_run_loop] over the wake-ups observed: the bot it leaves, the number of
    cycles that ran, and the exception that ended the thread, if one did. *)
Fixpoint _run_loop (b : MidasBot) (cycles : list cycle)
    : MidasBot * (nat * option exn) :=
  if stop_flag b then (b, (0%nat, None))
  else
    match cycles with
    | [] => (b, (0%nat, None))
    | c :: rest =>
        match loop_body b c with
        | (b1, Some e) => (b1, (1%nat, Some e))
        | (b1, None) =>
            let '(b', (n, e)) := _run_loop b1 rest in (b', (S n, e))
        end
    end.

(** ** Binary64 evaluation of the edge check and of the classifier *)

Module Binary64.

Import PrimFloat.

#[local] Set Warnings "-inexact-float".

(** [_net_ok] on the numbers CPython computes with; [self.fees["maker"]] and
    [self.min_net] are passed as arguments. *)
Definition _net_ok (maker min_net gross_step : float) : bool :=
  let net := (gross_step - (maker * 2 + 0.0002))%float in
  leb min_net net.

#[local] Open Scope float_scope.

(** [float(n)] of an [int] below 2^53, as in [n + 1.0] and [gains / n]. *)
Definition of_int (n : Z) : float := of_uint63 (Uint63.of_Z n).

(** [x / y]: CPython raises on a zero divisor of either sign. *)
Definition pydiv (x y : float) : result float :=
  if eqb y 0 then Raise ZeroDivisionError else Ok (x / y).

(** [max(a, b)]: a later item replaces the first only when it is greater. *)
Definition pymax (a b : float) : float := if ltb a b then b else a.

Record candle : Type := Candle {
  ts : float;
  open_px : float;
  high : float;
  low : float;
  close : float;
  volume : float
}.

Definition smooth (k s v : float) : float := (v - s) * k + s.

Fixpoint ema_go (k s : float) (vs : list float) : list float :=
  match vs with
  | [] => []
  | v :: vs' => let s' := smooth k s v in s' :: ema_go k s' vs'
  end.

Definition ema_list (values : list float) (n : Z) : list float :=
  match values with
  | [] => []
  | v0 :: rest =>
      if (n <=? 1)%Z then values
      else v0 :: ema_go (2 / (of_int n + 1)) v0 rest
  end.

Definition rsi_step (values : list float) (acc : float * float) (i : nat)
    : float * float :=
  let d := nth i values 0 - nth (i - 1)%nat values 0 in
  if leb 0 d then (fst acc + d, snd acc) else (fst acc, snd acc - d).

Definition rsi_sums (values : list float) (n : nat) : float * float :=
  fold_left (rsi_step values) (seq 1 n) (0, 0).

Definition rsi_list (values : list float) (n : nat) : result (option float) :=
  if (length values <? n + 1)%nat then Ok None
  else
    let gains := fst (rsi_sums values n) in
    let losses := snd (rsi_sums values n) in
    let! avg_gain := pydiv gains (of_int (Z.of_nat n)) in
    let! avg_loss := (if ltb 0 losses then pydiv losses (of_int (Z.of_nat n))
                 else Ok 0) in
    if eqb avg_loss 0 then Ok (Some 100)
    else
      let! rs := pydiv avg_gain avg_loss in
      let! q := pydiv 100 (1 + rs) in
      Ok (Some (100 - q)).

Fixpoint true_ranges (prev_close : float) (rows : list candle) : list float :=
  match rows with
  | [] => []
  | c :: rows' =>
      pymax (pymax (high c - low c) (abs (high c - prev_close)))
            (abs (low c - prev_close))
      :: true_ranges (close c) rows'
  end.

Definition atrp_list (ohlcv : list candle) (n : nat) : result float :=
  if (length ohlcv <? n + 1)%nat then Ok 0
  else
    match ohlcv with
    | [] => Raise IndexError
    | c0 :: rows =>
        match true_ranges (close c0) rows with
        | [] => Raise IndexError
        | t0 :: trs =>
            let k := 2 / (of_int (Z.of_nat n) + 1) in
            let s := fold_left (smooth k) trs t0 in
            let c := close (List.last ohlcv c0) in
            let last_close := if eqb c 0 then 1 else c in
            Ok (s / last_close)
        end
    end.

Definition regime_rules (slope r atrp : float) : regime :=
  if ltb 0.0008 slope && ltb 55 r && ltb 0.003 atrp then AFTERBURNER
  else if ltb (abs slope) 0.0004 && (ltb 35 r && ltb r 65) && ltb atrp 0.005
  then LUNCHBOX
  else if ltb (abs slope) 0.0015 && leb 0.003 atrp then REGULAR
  else if ltb r 32 && ltb (-0.002) slope then DIP
  else SCOUT.

Definition _regime (ohlcv : list candle) : result regime :=
  if (length ohlcv <? 50)%nat then Ok SCOUT
  else
    let closes := map close ohlcv in
    let! ema_fast := last_item (ema_list closes 12) in
    let! ema_slow := last_item (ema_list closes 48) in
    let! slope := pydiv (ema_fast - ema_slow) (ema_slow + 1e-12) in
    let! atrp := atrp_list ohlcv 14 in
    let! r := rsi_list closes 14 in
    match r with
    | None => Ok SCOUT
    | Some r => Ok (regime_rules slope r atrp)
    end.

End Binary64.

(** ** Utilities and start-up *)

(** [clamp(x, lo, hi)]: [max(lo, min(hi, x))]. *)
Definition clamp (x lo hi : Q) : Q := Qmax lo (Qmin hi x).

(** [str.lower()] on the letters A to Z; other bytes are unchanged. *)
Definition lower_ascii (c : ascii) : ascii :=
  let n := nat_of_ascii c in
  if (65 <=? n)%nat && (n <=? 90)%nat then ascii_of_nat (n + 32) else c.

Fixpoint lower (s : string) : string :=
  match s with
  | EmptyString => EmptyString
  | String c s' => String (lower_ascii c) (lower s')
  end.

(** [s.replace("/USD", "/USDT")]: every occurrence, left to right. *)
Fixpoint replace_usd (s : string) : string :=
  match s with
  | String "/" (String "U" (String "S" (String "D" rest))) =>
      String "/" (String "U" (String "S" (String "D" (String "T"
        (replace_usd rest)))))
  | String c s' => String c (replace_usd s')
  | EmptyString => EmptyString
  end.

(** [s.endswith(suf)]. *)
Fixpoint ends_with (suf s : string) : bool :=
  String.eqb s suf
  || match s with
     | String _ s' => ends_with suf s'
     | EmptyString => false
     end.

(** [resolve_pair(ex, pair)]; [listed p] says that [ex.market(p)] does not
    raise. *)
Definition resolve_pair (listed : string -> bool) (pair : string) : string :=
  if listed pair then pair
  else if ends_with "/USD" pair then
    let alt := replace_usd pair in
    if listed alt then alt else pair
  else pair.

(** The mode decided by [main]: [cfg.get("mode")] when it is a non-empty
    string, else the [--live] flag; the bot runs on paper unless the mode is
    ["live"] and [--confirm] is exactly ["I-UNDERSTAND"]. *)
Definition main_paper (cfg_mode : option string) (live : bool)
    (confirm : string) : bool :=
  let flag_mode := if live then "live"%string else "paper"%string in
  let mode :=
    lower (match cfg_mode with
           | Some m => if bool_decide (m = EmptyString) then flag_mode else m
           | None => flag_mode
           end) in
  let paper := bool_decide (mode <> "live"%string) in
  if negb paper && bool_decide (confirm <> "I-UNDERSTAND"%string) then true
  else paper.

(** * The specification's side

    Definitions that follow the wording of the specification, to be compared
    with the ones above, and the concrete inputs used in examples. *)

(** ** The classifier as an ordered decision table *)

(** Rules as (guard, verdict) pairs over (slope, rsi, vol). *)
Definition decision_table : list ((Q * Q * Q -> bool) * regime) :=
  [ (fun x => let '(slope, rsi, vol) := x in
       Qltb 0.0008 slope && Qltb 55 rsi && Qltb 0.003 vol, AFTERBURNER);
    (fun x => let '(slope, rsi, vol) := x in
       Qltb (Qabs slope) 0.0004 && (Qltb 35 rsi && Qltb rsi 65)
       && Qltb vol 0.005, LUNCHBOX);
    (fun x => let '(slope, rsi, vol) := x in
       Qltb (Qabs slope) 0.0015 && Qleb 0.003 vol, REGULAR);
    (fun x => let '(slope, rsi, vol) := x in
       Qltb rsi 32 && Qltb (-0.002) slope, DIP) ].

(** First match wins; [dflt] when no guard holds. *)
Fixpoint first_match {A B : Type} (rules : list ((A -> bool) * B)) (dflt : B)
    (x : A) : B :=
  match rules with
  | [] => dflt
  | (guard, verdict) :: rules' =>
      if guard x then verdict else first_match rules' dflt x
  end.

Definition classify (slope rsi vol : Q) : regime :=
  first_match decision_table SCOUT (slope, rsi, vol).

(** The slope with the slow average itself as divisor. *)
Definition slope_over_slow (closes : list Q) : Q :=
  let fast := List.last (ema_list closes 12) 0 in
  let slow := List.last (ema_list closes 48) 0 in
  (fast - slow) / slow.

(** The classifier with [slope_over_slow] as its slope. *)
Definition regime_over_slow (ohlcv : list candle) : regime :=
  if (length ohlcv <? 50)%nat then SCOUT
  else
    let closes := map close ohlcv in
    match rsi_list closes 14, atrp_list ohlcv 14 with
    | Ok (Some rsi), Ok vol => classify (slope_over_slow closes) rsi vol
    | _, _ => SCOUT
    end.

(** Forty-nine candles closing at 48026, then one closing at 47389: the slow
    average ends at 48000 and the fast one at 47928. *)
Definition falling_series : list candle :=
  repeat (Candle 0 48026 48126 47926 48026 0) 49
  ++ [Candle 0 48026 48026 47389 47389 0].

(** Forty-nine candles closing at 0.001 with a range of 1%, then one
    falling to 0.000986736351136502: the slow average ends near 0.00099946,
    and the fast one below it by a little more than 0.0015 of it, less than
    one part in a thousand million more. *)
Definition cheap_series : list candle :=
  repeat (Candle 0 0.001 0.001005 0.000995 0.001 0) 49
  ++ [Candle 0 0.001 0.001 0.000986736351136502 0.000986736351136502 0].

(** The same on binary64 numbers, over the classifier of [Binary64]. *)
Module Binary64Spec.

Import PrimFloat.

#[local] Set Warnings "-inexact-float".
#[local] Open Scope float_scope.

Definition slope_over_slow (closes : list float) : float :=
  let fast := List.last (Binary64.ema_list closes 12) 0 in
  let slow := List.last (Binary64.ema_list closes 48) 0 in
  (fast - slow) / slow.

Definition regime_over_slow (ohlcv : list Binary64.candle) : regime :=
  if (length ohlcv <? 50)%nat then SCOUT
  else
    let closes := map Binary64.close ohlcv in
    match Binary64.rsi_list closes 14, Binary64.atrp_list ohlcv 14 with
    | Ok (Some rsi), Ok vol =>
        Binary64.regime_rules (slope_over_slow closes) rsi vol
    | _, _ => SCOUT
    end.

(** [cheap_series], its literals read as CPython reads them. *)
Definition cheap_series : list Binary64.candle :=
  repeat (Binary64.Candle 0 0.001 0.001005 0.000995 0.001 0) 49
  ++ [Binary64.Candle 0 0.001 0.001 0.000986736351136502
        0.000986736351136502 0].

End Binary64Spec.

(** ** The ladder, level by level *)

Definition effective_budget (b : MidasBot) : Q :=
  Qmin (budget_usd b) (balance_quote b).

Definition per_level (b : MidasBot) : Q :=
  effective_budget b / inject_Z (grids b).

(** The price of level [i] on one side of [price]. *)
Definition level_price (b : MidasBot) (price : Q) (sd : order_side) (i : Z)
    : Q :=
  match sd with
  | buy => price * (1 - spacing b * inject_Z i)
  | sell => price * (1 + spacing b * inject_Z i)
  end.

(** The quantity of a level before rounding. *)
Definition candidate_qty (b : MidasBot) (price : Q) (sd : order_side) (i : Z)
    : Q :=
  per_level b / Qmax (level_price b price sd i) 1e-9.

(** The fraction of [price] between [price] and the level. *)
Definition gross_step (b : MidasBot) (price : Q) (sd : order_side) (i : Z)
    : Q :=
  match sd with
  | buy => (price - level_price b price buy i) / Qmax price 1e-9
  | sell => (level_price b price sell i - price) / Qmax price 1e-9
  end.

Definition level_order (b : MidasBot) (price : Q) (sd : order_side) (i : Z)
    : order :=
  (sd, round (candidate_qty b price sd i) 8, round (level_price b price sd i) 4).

(** What level [i] contributes: the buy, then the sell, each only when its
    step clears the edge check. *)
Definition level_orders (b : MidasBot) (price : Q) (i : Z) : list order :=
  (if _net_ok b (gross_step b price buy i)
   then [level_order b price buy i] else [])
  ++
  (if _net_ok b (gross_step b price sell i)
   then [level_order b price sell i] else []).

Definition ladder (b : MidasBot) (price : Q) : list order :=
  flat_map (level_orders b price)
           (map Z.of_nat (seq 1 (Z.to_nat (grids b)))).

(** The notional of the ledger rows, [qty * entry_px] summed. *)
Definition notional (rows : list trade_record) : Q :=
  fold_right (fun row acc => qty row * entry_px row + acc) 0 rows.

(** The settings fixed at start-up, and the stop flag. *)
Definition same_settings (b b' : MidasBot) : Prop :=
  pair b' = pair b /\ paper b' = paper b /\ budget_usd b' = budget_usd b /\
  grids b' = grids b /\ spacing b' = spacing b /\ min_net b' = min_net b /\
  tick b' = tick b /\ stop_flag b' = stop_flag b.

(** The quantity and entry price of a ledger row, and of an order. *)
Definition row_key (row : trade_record) : Q * Q := (qty row, entry_px row).
Definition order_key (o : order) : Q * Q := (snd (fst o), snd o).


(** The target move of a paper fill: the spacing, half as much again for
    AFTERBURNER. *)
Definition target_move (b : MidasBot) (tag : regime) : Q :=
  if bool_decide (tag <> AFTERBURNER) then spacing b else spacing b * 1.5.

(** The fee cache holds both rates and no ["manual"] key. *)
Definition fee_keys_ok (f : gmap string Q) : Prop :=
  is_Some (f !! "maker"%string) /\ is_Some (f !! "taker"%string) /\
  f !! "manual"%string = None.

(** No slash in a string. *)
Fixpoint no_slash (s : string) : bool :=
  match s with
  | EmptyString => true
  | String c s' => negb (Ascii.eqb c "/"%char) && no_slash s'
  end.

(** ** Sample inputs *)

(** The command-line defaults, with 100 of the quote asset available. *)
Definition default_bot : MidasBot :=
  set_balance_quote (__init__ "BTC/USD" true 50 8 0.005 0.002 15 None) 100.

(** Spacing of 0.1%: the inner levels do not clear the edge check. *)
Definition thin_bot : MidasBot :=
  set_balance_quote (__init__ "BTC/USD" true 50 8 0.001 0.002 15 None) 100.

(** Two levels spaced 60% apart: the second buy level lies below zero. *)
Definition wide_bot : MidasBot :=
  set_balance_quote (__init__ "BTC/USD" true 50 2 0.6 0.002 15 None) 100.

(** One level only, before its first cycle. *)
Definition single_level_bot : MidasBot :=
  __init__ "BTC/USD" true 50 1 0.005 0.002 15 None.

(** A bot started with both rates overridden. *)
Definition manual_bot : MidasBot :=
  __init__ "BTC/USD" true 50 8 0.005 0.002 15
    (Some (<["maker"%string := 0.0005]> (<["taker"%string := 0.0007]> ∅))).

(** Fifty candles closing at 100 with a range of 1: a REGULAR market. *)
Definition steady_series : list candle :=
  repeat (Candle 0 100 100.5 99.5 100 0) 50.

(** An exchange whose fee endpoints fail, with 100 USD free and a last
    price of 100. *)
Definition steady_reply : exchange_reply :=
  Reply (Raise NetworkError) (Raise NetworkError)
        (Ok (<["USD"%string := 100]> ∅)) (Ok (Some 100, None))
        (Ok steady_series) None.

(** One candle closing at 101, then forty-nine at 100, none with a range:
    a DIP market (relative strength 0, slope near -0.0013, volatility near
    0.00001). *)
Definition dip_series : list candle :=
  Candle 0 101 101 101 101 0 :: repeat (Candle 0 100 100 100 100 0) 49.

(** [steady_reply] with the candles of [dip_series]. *)
Definition dip_reply : exchange_reply :=
  Reply (Raise NetworkError) (Raise NetworkError)
        (Ok (<["USD"%string := 100]> ∅)) (Ok (Some 100, None))
        (Ok dip_series) None.

(** Two levels at the default spacing, before the first cycle. *)
Definition two_level_bot : MidasBot :=
  __init__ "BTC/USD" true 50 2 0.005 0.002 15 None.

(** [steady_series] at a price of 0.00016: the same market, REGULAR, and
    an exchange that quotes that price with 100 USD free. *)
Definition small_price_series : list candle :=
  repeat (Candle 0 0.00016 0.0001608 0.0001592 0.00016 0) 50.

Definition small_price_reply : exchange_reply :=
  Reply (Raise NetworkError) (Raise NetworkError)
        (Ok (<["USD"%string := 100]> ∅)) (Ok (Some 0.00016, None))
        (Ok small_price_series) None.

(** A bot whose pair has no slash: every cycle fails at the balance
    refresh. *)
Definition unsplit_bot : MidasBot :=
  __init__ "BTCUSD" true 50 8 0.005 0.002 15 None.

(** A bot told to sleep 9223372037 seconds between cycles. *)
Definition long_tick_bot : MidasBot :=
  __init__ "BTC/USD" true 50 8 0.005 0.002 9223372037 None.

(** An exchange that quotes its own fee schedule. *)
Definition fee_reply : exchange_reply :=
  Reply (Ok (<["maker"%string := 0.0016]> (<["taker"%string := 0.0026]> ∅)))
        (Raise NetworkError) (Ok ∅) (Ok (None, None)) (Ok []) None.

(** * Properties *)

(** ** Boolean comparisons *)

Lemma Qleb_le (x y : Q) : Qleb x y = true <-> x <= y.
Proof. unfold Qleb. apply Qle_bool_iff. Qed.

Lemma Qleb_gt (x y : Q) : Qleb x y = false <-> y < x.
Proof.
  unfold Qleb. split; intro H.
  - apply Qnot_le_lt. intro Hle. apply Qle_bool_iff in Hle. congruence.
  - destruct (Qle_bool x y) eqn:E; [|reflexivity].
    apply Qle_bool_iff in E. lra.
Qed.

Lemma Qltb_lt (x y : Q) : Qltb x y = true <-> x < y.
Proof.
  unfold Qltb. rewrite negb_true_iff. apply (Qleb_gt y x).
Qed.

Lemma Qltb_ge (x y : Q) : Qltb x y = false <-> y <= x.
Proof.
  unfold Qltb. rewrite negb_false_iff. apply (Qleb_le y x).
Qed.

Lemma Qeqb_eq (x y : Q) : Qeqb x y = true <-> x == y.
Proof. unfold Qeqb. apply Qeq_bool_iff. Qed.

Lemma Qeqb_neq (x y : Q) : Qeqb x y = false <-> ~ x == y.
Proof.
  unfold Qeqb. split; intro H.
  - intro E. apply Qeq_bool_iff in E. congruence.
  - destruct (Qeq_bool x y) eqn:E; [|reflexivity].
    apply Qeq_bool_iff in E. contradiction.
Qed.

Lemma pydiv_ok (x y : Q) : ~ y == 0 -> pydiv x y = Ok (x / y).
Proof.
  intro H. unfold pydiv. apply Qeqb_neq in H. now rewrite H.
Qed.

Lemma pydiv_zero (x y : Q) : y == 0 -> pydiv x y = Raise ZeroDivisionError.
Proof.
  intro H. unfold pydiv. apply Qeqb_eq in H. now rewrite H.
Qed.

Lemma last_item_cons {A : Type} (x : A) (l : list A) :
  last_item (x :: l) = Ok (List.last (x :: l) x).
Proof.
  unfold last_item.
  destruct (List.rev (x :: l)) as [|y r] eqn:E.
  - apply (f_equal (@List.length A)) in E.
    rewrite List.length_rev in E. discriminate.
  - f_equal.
    assert (Hl : x :: l = List.rev r ++ [y]).
    { rewrite <- (List.rev_involutive (x :: l)), E. reflexivity. }
    rewrite Hl. symmetry. apply List.last_last.
Qed.

(** ** The relative-strength oscillator *)

Lemma rsi_step_nonneg (values : list Q) (acc : Q * Q) (i : nat) :
  0 <= fst acc -> 0 <= snd acc ->
  0 <= fst (rsi_step values acc i) /\ 0 <= snd (rsi_step values acc i).
Proof.
  intros Hg Hl. unfold rsi_step.
  destruct (Qleb 0 (nth i values 0 - nth (i - 1) values 0)) eqn:E; simpl.
  - apply Qleb_le in E. split; lra.
  - apply Qleb_gt in E. split; lra.
Qed.

Lemma rsi_fold_nonneg (values : list Q) (idx : list nat) :
  forall acc : Q * Q,
    0 <= fst acc -> 0 <= snd acc ->
    0 <= fst (fold_left (rsi_step values) idx acc) /\
    0 <= snd (fold_left (rsi_step values) idx acc).
Proof.
  induction idx as [|i idx IH]; intros acc Hg Hl; simpl.
  - split; assumption.
  - destruct (rsi_step_nonneg values acc i Hg Hl) as [Hg' Hl'].
    apply IH; assumption.
Qed.

Lemma rsi_sums_nonneg (values : list Q) (n : nat) :
  0 <= fst (rsi_sums values n) /\ 0 <= snd (rsi_sums values n).
Proof.
  unfold rsi_sums. apply rsi_fold_nonneg; simpl; lra.
Qed.

(** With a positive window and enough values, [rsi_list] neither raises nor
    answers [None]. *)
Lemma rsi_list_value (values : list Q) (n : nat) :
  (0 < n)%nat -> (n + 1 <= length values)%nat ->
  exists r : Q, rsi_list values n = Ok (Some r).
Proof.
  intros Hn Hlen. unfold rsi_list.
  destruct (Nat.ltb_spec (length values) (n + 1)) as [Hlt|_]; [lia|].
  destruct (rsi_sums_nonneg values n) as [Hg Hl].
  set (gains := fst (rsi_sums values n)) in *.
  set (losses := snd (rsi_sums values n)) in *.
  assert (Hn0 : 0 < inject_Z (Z.of_nat n)).
  { replace 0 with (inject_Z 0) by reflexivity. rewrite <- Zlt_Qlt. lia. }
  rewrite (pydiv_ok gains) by lra. cbn [bind].
  destruct (Qltb 0 losses) eqn:El.
  - apply Qltb_lt in El.
    rewrite (pydiv_ok losses) by lra. cbn [bind].
    assert (Hal : 0 < losses / inject_Z (Z.of_nat n)).
    { apply Qlt_shift_div_l; lra. }
    destruct (Qeqb (losses / inject_Z (Z.of_nat n)) 0) eqn:Ez.
    + apply Qeqb_eq in Ez. lra.
    + rewrite pydiv_ok by lra. cbn [bind].
      assert (Hrs : 0 <= gains / inject_Z (Z.of_nat n)
                         / (losses / inject_Z (Z.of_nat n))).
      { apply Qle_shift_div_l; [assumption|].
        rewrite Qmult_0_l. apply Qle_shift_div_l; lra. }
      rewrite pydiv_ok by lra. cbn [bind]. eexists. reflexivity.
  - cbn [bind]. change (Qeqb 0 0) with true. cbn. eexists. reflexivity.
Qed.

(** ** The classifier *)

Lemma ema_list_last (v0 : Q) (rest : list Q) (n : Z) :
  exists x : Q, last_item (ema_list (v0 :: rest) n) = Ok x.
Proof.
  unfold ema_list. destruct (n <=? 1)%Z.
  - eexists. apply last_item_cons.
  - eexists. apply last_item_cons.
Qed.

Lemma true_ranges_length (pc : Q) (rows : list candle) :
  length (true_ranges pc rows) = length rows.
Proof.
  revert pc. induction rows as [|c rows IH]; intro pc; simpl.
  - reflexivity.
  - now rewrite IH.
Qed.

(** With at least two candles beyond the window test, the volatility is a
    number: no index is out of range and the divisor is not zero. *)
Lemma atrp_list_value (ohlcv : list candle) (n : nat) :
  (2 <= length ohlcv)%nat -> exists v : Q, atrp_list ohlcv n = Ok v.
Proof.
  intro Hlen. unfold atrp_list.
  destruct (length ohlcv <? n + 1)%nat; [eexists; reflexivity|].
  destruct ohlcv as [|c0 rows]; [simpl in Hlen; lia|].
  destruct (true_ranges (close c0) rows) as [|t0 trs] eqn:E.
  - apply (f_equal (@length Q)) in E. rewrite true_ranges_length in E.
    simpl in Hlen, E. lia.
  - eexists. reflexivity.
Qed.

Lemma regime_rules_table (slope r atrp : Q) :
  regime_rules slope r atrp = classify slope r atrp.
Proof. reflexivity. Qed.

#[local] Set Warnings "-inexact-float".

(** C1 (as amended).  A series of fewer than 50 candles is SCOUT.  From 50
    candles on, the fast and slow averages, the relative strength and the
    volatility all exist, and the classifier evaluates the decision table in
    its fixed order, first match winning, on
    slope = (fast - slow) / (slow + 1e-12); it raises a division error
    instead when slow + 1e-12 is zero.  Slope 0.0005, rsi 45 and volatility
    0.01 classify as REGULAR. *)
Theorem regime_decision_table (ohlcv : list candle) :
  ((length ohlcv < 50)%nat -> _regime ohlcv = Ok SCOUT) /\
  ((50 <= length ohlcv)%nat ->
   exists fast slow rsi vol : Q,
     last_item (ema_list (map close ohlcv) 12) = Ok fast /\
     last_item (ema_list (map close ohlcv) 48) = Ok slow /\
     rsi_list (map close ohlcv) 14 = Ok (Some rsi) /\
     atrp_list ohlcv 14 = Ok vol /\
     _regime ohlcv =
       if Qeqb (slow + 1e-12) 0 then Raise ZeroDivisionError
       else Ok (classify ((fast - slow) / (slow + 1e-12)) rsi vol)) /\
  classify 0.0005 45 0.01 = REGULAR.
Proof.
  split; [|split].
  - intro Hlen. unfold _regime.
    destruct (Nat.ltb_spec (length ohlcv) 50) as [_|Hge]; [reflexivity|lia].
  - intro Hlen.
    destruct ohlcv as [|c0 rows]; [simpl in Hlen; lia|].
    destruct (ema_list_last (close c0) (map close rows) 12) as [fast Hfast].
    destruct (ema_list_last (close c0) (map close rows) 48) as [slow Hslow].
    destruct (rsi_list_value (map close (c0 :: rows)) 14) as [rsi Hrsi];
      [lia | rewrite length_map; lia |].
    destruct (atrp_list_value (c0 :: rows) 14) as [vol Hvol]; [lia|].
    exists fast, slow, rsi, vol.
    repeat split; try assumption.
    unfold _regime.
    destruct (Nat.ltb_spec (length (c0 :: rows)) 50) as [Hlt|_]; [lia|].
    cbv zeta. change (map close (c0 :: rows)) with (close c0 :: map close rows) in *.
    rewrite Hfast, Hslow. cbn [bind]. unfold pydiv.
    destruct (Qeqb (slow + 1e-12) 0); [reflexivity|].
    cbn [bind]. rewrite Hvol. cbn [bind]. rewrite Hrsi. cbn [bind].
    now rewrite regime_rules_table.
  - reflexivity.
Qed.

Lemma regime_decision_table_witness :
  exists fast slow rsi vol : Q,
    last_item (ema_list (map close cheap_series) 12) = Ok fast /\
    last_item (ema_list (map close cheap_series) 48) = Ok slow /\
    rsi_list (map close cheap_series) 14 = Ok (Some rsi) /\
    atrp_list cheap_series 14 = Ok vol /\
    _regime cheap_series =
      if Qeqb (slow + 1e-12) 0 then Raise ZeroDivisionError
      else Ok (classify ((fast - slow) / (slow + 1e-12)) rsi vol).
Proof.
  apply (proj1 (proj2 (regime_decision_table cheap_series))).
  vm_compute. lia.
Defined.

(** C1, as stated, fails: on [cheap_series] the slope taken over the slow
    average itself lies below -0.0015, no rule matches and the claimed
    answer is SCOUT; the code divides by the slow average plus 1e-12, which
    at a price near 0.001 is one part in a thousand million more, its slope
    stays inside the 0.0015 band and it answers REGULAR.  The two answers
    are the same on exact rationals and on binary64 numbers. *)
Lemma regime_slope_divisor_counterexample :
  _regime cheap_series = Ok REGULAR /\
  regime_over_slow cheap_series = SCOUT /\
  slope_over_slow (map close cheap_series) < -0.0015 /\
  Binary64._regime Binary64Spec.cheap_series = Ok REGULAR /\
  Binary64Spec.regime_over_slow Binary64Spec.cheap_series = SCOUT.
Proof.
  repeat split; vm_compute; reflexivity.
Qed.

(** C10.  From 50 candles on, the relative strength of the closes over a
    window of 14 is a number: [rsi_list] neither answers [None] nor raises,
    so the [None] branch of the classifier is not taken. *)
Theorem rsi_present_from_50_candles (ohlcv : list candle) :
  (50 <= length ohlcv)%nat ->
  (exists r : Q, rsi_list (map close ohlcv) 14 = Ok (Some r)) /\
  rsi_list (map close ohlcv) 14 <> Ok None.
Proof.
  intro Hlen.
  assert (Hr : exists r : Q, rsi_list (map close ohlcv) 14 = Ok (Some r)).
  { apply rsi_list_value; [lia | rewrite length_map; lia]. }
  split; [exact Hr|].
  destruct Hr as [r Hr]. rewrite Hr. discriminate.
Qed.

Lemma rsi_present_from_50_candles_witness :
  (exists r : Q, rsi_list (map close steady_series) 14 = Ok (Some r)) /\
  rsi_list (map close steady_series) 14 <> Ok None.
Proof.
  apply (rsi_present_from_50_candles steady_series). vm_compute. lia.
Defined.

(** ** The fee/edge check *)

Module EdgeCheck.

Import PrimFloat.

Lemma net_ok_iff (b : MidasBot) (g : Q) :
  _net_ok b g = true <->
  min_net b <= g - (2 * rate (fees b) "maker" + 0.0002).
Proof.
  unfold _net_ok. cbv zeta. rewrite Qleb_le. split; intro H; lra.
Qed.

(** C6 (as amended).  The check answers true exactly when
    grossStep - (2 * makerRate + 0.0002) >= minNet; read over exact
    numbers, with maker 0.001 and minNet 0.002, that is grossStep >= 0.0042.
    Evaluated on binary64 numbers, as the program runs it, the inputs 0.0042
    and 0.0041999 both fail and 0.0043 passes. *)
Theorem net_ok_threshold (b : MidasBot) (g : Q) :
  (_net_ok b g = true <->
   g - (2 * rate (fees b) "maker" + 0.0002) >= min_net b) /\
  (rate (fees b) "maker" == 0.001 -> min_net b == 0.002 ->
   (_net_ok b g = true <-> g >= 0.0042)) /\
  Binary64._net_ok 0.001%float 0.002%float 0.0042%float = false /\
  Binary64._net_ok 0.001%float 0.002%float 0.0041999%float = false /\
  Binary64._net_ok 0.001%float 0.002%float 0.0043%float = true.
Proof.
  split; [apply net_ok_iff|].
  split.
  - intros Hm Hn. rewrite net_ok_iff, Hm, Hn. split; intro H; lra.
  - repeat split; vm_compute; reflexivity.
Qed.

Lemma net_ok_threshold_witness :
  _net_ok default_bot 0.0042 = true <-> 0.0042 >= 0.0042.
Proof.
  apply (proj1 (proj2 (net_ok_threshold default_bot 0.0042)));
    vm_compute; reflexivity.
Defined.

(** C6, as stated, fails at its own boundary: in binary64
    0.0042 - (0.001 * 2 + 0.0002) is 0.0019999999999999996, below 0.002. *)
Lemma net_ok_boundary_counterexample :
  Binary64._net_ok 0.001%float 0.002%float 0.0042%float = false /\
  PrimFloat.ltb (0.0042 - (0.001 * 2 + 0.0002))%float 0.002%float = true.
Proof.
  split; vm_compute; reflexivity.
Qed.

End EdgeCheck.

(** ** Rounding *)

Lemma pow10_pos (n : nat) : 0 < pow10 n.
Proof.
  unfold pow10. replace 0 with (inject_Z 0) by reflexivity.
  rewrite <- Zlt_Qlt. apply Z.pow_pos_nonneg; lia.
Qed.

Lemma round_half_even_bounds (x : Q) :
  (Qfloor x <= round_half_even x <= Qfloor x + 1)%Z.
Proof.
  unfold round_half_even. cbv zeta.
  destruct (x - inject_Z (Qfloor x) ?= 1 # 2); [destruct (Z.even _)| |]; lia.
Qed.

Lemma round_nonneg (x : Q) (n : nat) : 0 <= x -> 0 <= round x n.
Proof.
  intro Hx. unfold round.
  pose proof (pow10_pos n) as Hp.
  apply Qle_shift_div_l; [assumption|]. rewrite Qmult_0_l.
  replace 0 with (inject_Z 0) by reflexivity. rewrite <- Zle_Qle.
  assert (H0 : (0 <= Qfloor (x * pow10 n))%Z).
  { replace 0%Z with (Qfloor 0) by reflexivity. apply Qfloor_resp_le.
    apply Qmult_le_0_compat; lra. }
  pose proof (round_half_even_bounds (x * pow10 n)). lia.
Qed.

Lemma round_half_even_error (x : Q) :
  Qabs (inject_Z (round_half_even x) - x) <= 1 # 2.
Proof.
  pose proof (Qfloor_le x) as Hlo. pose proof (Qlt_floor x) as Hhi.
  rewrite inject_Z_plus in Hhi. change (inject_Z 1) with 1 in Hhi.
  unfold round_half_even. cbv zeta.
  destruct (Qcompare_spec (x - inject_Z (Qfloor x)) (1 # 2)) as [E|E|E].
  - destruct (Z.even (Qfloor x)).
    + apply Qabs_Qle_condition. split; lra.
    + rewrite inject_Z_plus. change (inject_Z 1) with 1.
      apply Qabs_Qle_condition. split; lra.
  - apply Qabs_Qle_condition. split; lra.
  - rewrite inject_Z_plus. change (inject_Z 1) with 1.
    apply Qabs_Qle_condition. split; lra.
Qed.

Lemma round_error (x : Q) (n : nat) :
  Qabs (round x n - x) <= (1 # 2) / pow10 n.
Proof.
  pose proof (pow10_pos n) as Hp.
  pose proof (round_half_even_error (x * pow10 n)) as H.
  apply Qabs_Qle_condition in H. destruct H as [H1 H2].
  unfold round.
  assert (E : inject_Z (round_half_even (x * pow10 n)) / pow10 n - x
              == (inject_Z (round_half_even (x * pow10 n)) - x * pow10 n)
                 / pow10 n) by (field; lra).
  rewrite E. apply Qabs_Qle_condition. split.
  - apply Qle_shift_div_l; [assumption|].
    assert (E2 : - ((1 # 2) / pow10 n) * pow10 n == - (1 # 2))
      by (field; lra).
    rewrite E2. exact H1.
  - apply Qle_shift_div_r; [assumption|].
    assert (E2 : (1 # 2) / pow10 n * pow10 n == 1 # 2) by (field; lra).
    rewrite E2. exact H2.
Qed.

(** ** The planner *)

Lemma floor_price_pos (x : Q) : 0 < Qmax x 1e-9.
Proof.
  pose proof (Q.le_max_r x 1e-9) as H.
  assert (0 < 1e-9) by reflexivity. lra.
Qed.

Lemma plan_guard_false (b : MidasBot) (price : Q) :
  Qleb (Qmin (budget_usd b) (balance_quote b)) 0
  || (grids b <=? 0)%Z || Qleb price 0 = false <->
  0 < effective_budget b /\ (0 < grids b)%Z /\ 0 < price.
Proof.
  unfold effective_budget. rewrite !orb_false_iff, !Qleb_gt, Z.leb_gt. tauto.
Qed.

Lemma per_level_pos (b : MidasBot) :
  0 < effective_budget b -> (0 < grids b)%Z -> 0 < per_level b.
Proof.
  intros Hb Hg. unfold per_level.
  assert (0 < inject_Z (grids b)).
  { replace 0 with (inject_Z 0) by reflexivity. now rewrite <- Zlt_Qlt. }
  apply Qlt_shift_div_l; lra.
Qed.

Lemma candidate_qty_pos (b : MidasBot) (price : Q) (sd : order_side) (i : Z) :
  0 < per_level b -> 0 < candidate_qty b price sd i.
Proof.
  intro Hp. unfold candidate_qty.
  pose proof (floor_price_pos (level_price b price sd i)).
  apply Qlt_shift_div_l; lra.
Qed.

(** One turn of the planner's loop is the contribution of level [i + 1]. *)
Lemma grid_level_orders (b : MidasBot) (price : Q) (i : nat) :
  0 < per_level b ->
  grid_level b price (per_level b) i = level_orders b price (Z.of_nat (S i)).
Proof.
  intro Hp. unfold grid_level, level_orders. cbv zeta.
  rewrite Nat2Z.inj_succ. unfold Z.succ.
  pose proof (candidate_qty_pos b price buy (Z.of_nat i + 1) Hp) as Hb.
  pose proof (candidate_qty_pos b price sell (Z.of_nat i + 1) Hp) as Hs.
  apply Qltb_lt in Hb, Hs.
  unfold candidate_qty, level_price in Hb, Hs. rewrite Hb, Hs.
  reflexivity.
Qed.

Lemma flat_map_shifted {A : Type} (f : nat -> list A) (g : Z -> list A)
    (n : nat) :
  (forall i : nat, f i = g (Z.of_nat (S i))) ->
  forall start : nat,
    flat_map f (seq start n) = flat_map g (map Z.of_nat (seq (S start) n)).
Proof.
  intro Hfg. induction n as [|n IH]; intro start; simpl.
  - reflexivity.
  - rewrite Hfg. f_equal. apply IH.
Qed.

(** Past its guard, the planner's list is the ladder. *)
Lemma plan_grid_is_ladder (b : MidasBot) (price : Q) :
  0 < effective_budget b -> (0 < grids b)%Z -> 0 < price ->
  _plan_grid b price = ladder b price.
Proof.
  intros Hb Hg Hpx. unfold _plan_grid. cbv zeta.
  rewrite (proj2 (plan_guard_false b price)) by tauto.
  unfold ladder.
  change (Qmin (budget_usd b) (balance_quote b) / inject_Z (grids b))
    with (per_level b).
  apply (flat_map_shifted _ (level_orders b price)).
  intro i. apply (grid_level_orders b price i).
  now apply per_level_pos.
Qed.

Lemma plan_grid_guarded (b : MidasBot) (price : Q) :
  effective_budget b <= 0 \/ (grids b <= 0)%Z \/ price <= 0 ->
  _plan_grid b price = [].
Proof.
  intro H. unfold _plan_grid. cbv zeta.
  destruct (Qleb (Qmin (budget_usd b) (balance_quote b)) 0
            || (grids b <=? 0)%Z || Qleb price 0) eqn:E; [reflexivity|].
  apply plan_guard_false in E. destruct E as (H1 & H2 & H3).
  destruct H as [H|[H|H]]; [lra | lia | lra].
Qed.

(** Every order of the planner's list is the order of some level that
    cleared the edge check; the guard held when the list is not empty. *)
Lemma plan_grid_In (b : MidasBot) (price : Q) (o : order) :
  In o (_plan_grid b price) ->
  0 < effective_budget b /\ (0 < grids b)%Z /\ 0 < price /\
  exists (sd : order_side) (i : Z),
    (1 <= i <= grids b)%Z /\
    _net_ok b (gross_step b price sd i) = true /\
    o = level_order b price sd i.
Proof.
  intro Hin.
  destruct (Qleb (Qmin (budget_usd b) (balance_quote b)) 0
            || (grids b <=? 0)%Z || Qleb price 0) eqn:E.
  - unfold _plan_grid in Hin. cbv zeta in Hin. rewrite E in Hin. destruct Hin.
  - apply plan_guard_false in E. destruct E as (H1 & H2 & H3).
    repeat (split; [assumption|]).
    rewrite plan_grid_is_ladder in Hin by assumption.
    unfold ladder in Hin. apply List.in_flat_map in Hin.
    destruct Hin as (i & Hi & Ho).
    apply List.in_map_iff in Hi. destruct Hi as (k & <- & Hk).
    apply List.in_seq in Hk.
    unfold level_orders in Ho. apply List.in_app_or in Ho.
    destruct Ho as [Ho|Ho].
    + destruct (_net_ok b (gross_step b price buy (Z.of_nat k))) eqn:En;
        [|destruct Ho].
      destruct Ho as [<-|[]]. exists buy, (Z.of_nat k).
      repeat split; try assumption; lia.
    + destruct (_net_ok b (gross_step b price sell (Z.of_nat k))) eqn:En;
        [|destruct Ho].
      destruct Ho as [<-|[]]. exists sell, (Z.of_nat k).
      repeat split; try assumption; lia.
Qed.

(** C8 (as amended).  The effective budget is min(budget, balance); the
    planner's list is empty when the effective budget, the number of levels
    or the price is not positive.  Otherwise it is the ladder: for
    i = 1 .. gridLevels, innermost first, the buy at price * (1 - spacing*i)
    and then the sell at price * (1 + spacing*i), each present only when its
    step clears the edge check, priced to 4 decimals and sized to
    (effectiveBudget / gridLevels) / max(levelPrice, 1e-9) rounded to 8
    decimals.  With budget 50, balance 100, 8 levels, spacing 0.005 and price
    100 the per-level notional is 6.25 and the list starts with the buy at
    99.5 and the sell at 100.5. *)
Theorem plan_grid_ladder (b : MidasBot) (price : Q) :
  (effective_budget b <= 0 \/ (grids b <= 0)%Z \/ price <= 0 ->
   _plan_grid b price = []) /\
  (0 < effective_budget b -> (0 < grids b)%Z -> 0 < price ->
   _plan_grid b price = ladder b price) /\
  effective_budget default_bot == 50 /\
  per_level default_bot == 6.25 /\
  level_price default_bot 100 buy 1 == 99.5 /\
  level_price default_bot 100 sell 1 == 100.5 /\
  exists (q1 p1 q2 p2 : Q) (rest : list order),
    _plan_grid default_bot 100 = (buy, q1, p1) :: (sell, q2, p2) :: rest /\
    p1 == 99.5 /\ p2 == 100.5 /\ q1 == 0.06281407 /\ q2 == 0.06218905.
Proof.
  split; [apply plan_grid_guarded|].
  split; [apply plan_grid_is_ladder|].
  repeat (split; [vm_compute; reflexivity|]).
  vm_compute. do 5 eexists. split; [reflexivity|].
  repeat split.
Qed.

Lemma plan_grid_ladder_witness :
  _plan_grid default_bot 100 = ladder default_bot 100.
Proof.
  apply (proj1 (proj2 (plan_grid_ladder default_bot 100)));
    vm_compute; reflexivity.
Defined.

(** C8, as stated, fails: at a spacing of 0.1% the four inner levels do not
    clear the edge check, so the list has 8 orders, not 16, and none at a
    price strictly between 99.5 and 100.5; and the quantity listed first
    under the defaults is 0.06281407, below 6.25 / 99.5. *)
Lemma plan_grid_levels_counterexample :
  length (_plan_grid thin_bot 100) = 8%nat /\
  forallb (fun o => Qleb (snd o) 99.5 || Qleb 100.5 (snd o))
          (_plan_grid thin_bot 100) = true /\
  (exists (q p : Q) (rest : list order),
     _plan_grid default_bot 100 = (buy, q, p) :: rest /\
     q == 0.06281407 /\ q < 6.25 / 99.5).
Proof.
  split; [vm_compute; reflexivity|].
  split; [vm_compute; reflexivity|].
  vm_compute. do 3 eexists. split; [reflexivity|]. split; reflexivity.
Qed.

(** C2 (as amended).  Every order of the planner's list belongs to a level
    i of 1 .. gridLevels; its quantity is the rounding to 8 decimals of a
    strictly positive candidate, hence not negative, and its price is the
    rounding to 4 decimals of the level price, which is strictly positive on
    the sell side when the spacing is not negative, and on the buy side
    exactly when spacing * i < 1. *)
Theorem plan_grid_order_signs (b : MidasBot) (price : Q) (o : order) :
  In o (_plan_grid b price) ->
  exists (sd : order_side) (i : Z),
    (1 <= i <= grids b)%Z /\
    o = level_order b price sd i /\
    0 < candidate_qty b price sd i /\
    0 <= snd (fst o) /\
    (sd = sell -> 0 <= spacing b -> 0 < level_price b price sell i) /\
    (sd = buy ->
     (0 < level_price b price buy i <-> spacing b * inject_Z i < 1)).
Proof.
  intro Hin.
  destruct (plan_grid_In b price o Hin)
    as (Hb & Hg & Hpx & sd & i & Hi & _ & ->).
  pose proof (candidate_qty_pos b price sd i (per_level_pos b Hb Hg)) as Hq.
  exists sd, i. split; [assumption|]. split; [reflexivity|].
  split; [assumption|].
  split; [cbn; apply round_nonneg; lra|].
  assert (Hi1 : 1 <= inject_Z i).
  { replace 1 with (inject_Z 1) by reflexivity. rewrite <- Zle_Qle. lia. }
  split.
  - intros _ Hs. unfold level_price.
    assert (0 <= spacing b * inject_Z i)
      by (apply Qmult_le_0_compat; lra).
    apply Qmult_lt_0_compat; lra.
  - intros _. unfold level_price. split; intro H.
    + destruct (Qlt_le_dec (spacing b * inject_Z i) 1) as [|Hge];
        [assumption|].
      assert (0 <= price * (spacing b * inject_Z i - 1))
        by (apply Qmult_le_0_compat; lra).
      lra.
    + apply Qmult_lt_0_compat; lra.
Qed.

Lemma plan_grid_order_signs_witness :
  exists (sd : order_side) (i : Z),
    (1 <= i <= grids default_bot)%Z /\
    (buy, round (6.25 / Qmax 99.5 1e-9) 8, round 99.5 4)
      = level_order default_bot 100 sd i /\
    0 < candidate_qty default_bot 100 sd i /\
    0 <= round (6.25 / Qmax 99.5 1e-9) 8 /\
    (sd = sell -> 0 <= spacing default_bot ->
     0 < level_price default_bot 100 sell i) /\
    (sd = buy ->
     (0 < level_price default_bot 100 buy i <->
      spacing default_bot * inject_Z i < 1)).
Proof.
  apply (plan_grid_order_signs default_bot 100
           (buy, round (6.25 / Qmax 99.5 1e-9) 8, round 99.5 4)).
  vm_compute. left. reflexivity.
Defined.

(** C2, as stated, fails: at a price of 1e10 the default ladder lists a
    quantity that rounds to 0, and with two levels spaced 60% apart the
    second buy is listed at the price -20. *)
Lemma plan_grid_signs_counterexample :
  existsb (fun o => Qeqb (snd (fst o)) 0)
          (_plan_grid default_bot 10000000000) = true /\
  existsb (fun o => Qltb (snd o) 0 && Qeqb (snd o) (-20))
          (_plan_grid wide_bot 100) = true.
Proof.
  split; vm_compute; reflexivity.
Qed.

(** ** Paper fills *)

(** What every row written by [_exec_paper] holds. *)
Lemma paper_fill_row (b : MidasBot) (sd : order_side) (q px : Q)
    (tag : regime) (row : trade_record) :
  paper_fill b sd q px tag = Ok row ->
  ~ px == 0 /\
  bot row = tag /\ symbol row = pair b /\ qty row = q /\ entry_px row = px /\
  side row = match sd with buy => LONG | sell => SHORT end /\
  fee_pct_rt row = rate (fees b) "maker" /\
  net_pct row = gross_pct row - (rate (fees b) "maker" * 2 + 0.0002) /\
  runtime_sec row = tick b.
Proof.
  unfold paper_fill. cbv zeta. unfold pydiv.
  destruct sd; destruct (Qeqb px 0) eqn:E; cbn [bind]; intro H;
    try discriminate; apply Qeqb_neq in E; injection H as <-; cbn;
    repeat split; assumption.
Qed.

Lemma paper_fill_raises (b : MidasBot) (sd : order_side) (q px : Q)
    (tag : regime) :
  px == 0 -> paper_fill b sd q px tag = Raise ZeroDivisionError.
Proof.
  intro H. apply Qeqb_eq in H. unfold paper_fill. cbv zeta. unfold pydiv.
  destruct sd; rewrite H; reflexivity.
Qed.

(** C7 (as amended).  For an entry price p other than zero, the fill of an
    order is a row whose exit price is p * (1 + s) for a buy and p * (1 - s)
    for a sell, with 1.5 * s in place of s exactly when the tag is
    AFTERBURNER; gross = (exit - p) / p for a buy and (p - exit) / p for a
    sell, which is |exit - p| / p when p > 0 and s >= 0;
    net = gross - 2m - 0.0002; and pnl = q*(exit - p) - q*p*m - q*exit*m for
    the long, mirrored for the short.  A LUNCHBOX buy at 100 with s = 0.005
    and m = 0.001 exits at 100.5 with gross 0.005 and net 0.0028. *)
Theorem paper_fill_formulas (b : MidasBot) (sd : order_side) (q p : Q)
    (tag : regime) :
  (~ p == 0 ->
   exists row : trade_record,
     paper_fill b sd q p tag = Ok row /\
     exit_px row ==
       (let s := if bool_decide (tag = AFTERBURNER) then 1.5 * spacing b
                 else spacing b in
        match sd with buy => p * (1 + s) | sell => p * (1 - s) end) /\
     gross_pct row ==
       match sd with
       | buy => (exit_px row - p) / p
       | sell => (p - exit_px row) / p
       end /\
     (0 < p -> 0 <= spacing b ->
      gross_pct row == Qabs (exit_px row - p) / p) /\
     net_pct row == gross_pct row - 2 * rate (fees b) "maker" - 0.0002 /\
     pnl_usd row ==
       (let m := rate (fees b) "maker" in
        match sd with
        | buy => q * (exit_px row - p) - q * p * m - q * exit_px row * m
        | sell => q * (p - exit_px row) - q * p * m - q * exit_px row * m
        end)) /\
  (exists row : trade_record,
     paper_fill default_bot buy q 100 LUNCHBOX = Ok row /\
     exit_px row == 100.5 /\ gross_pct row == 0.005 /\
     net_pct row == 0.0028).
Proof.
  split.
  - intro Hp.
    assert (Heq : (if bool_decide (tag <> AFTERBURNER) then spacing b
                   else spacing b * 1.5)
                  == (if bool_decide (tag = AFTERBURNER) then 1.5 * spacing b
                      else spacing b)).
    { destruct (decide (tag = AFTERBURNER)) as [Ht|Ht].
      - rewrite (bool_decide_eq_false_2 (tag <> AFTERBURNER)) by tauto.
        rewrite (bool_decide_eq_true_2 (tag = AFTERBURNER)) by assumption.
        ring.
      - rewrite (bool_decide_eq_true_2 (tag <> AFTERBURNER)) by assumption.
        rewrite (bool_decide_eq_false_2 (tag = AFTERBURNER)) by assumption.
        reflexivity. }
    unfold paper_fill. cbv zeta.
    set (move := if bool_decide (tag <> AFTERBURNER) then spacing b
                 else spacing b * 1.5) in *.
    destruct sd; rewrite pydiv_ok by assumption; cbn [bind]; eexists;
      (split; [reflexivity|]); cbn [exit_px gross_pct net_pct pnl_usd].
    + split; [rewrite Heq; reflexivity|].
      split; [reflexivity|].
      split; [|split; ring].
      intros Hpos Hs.
      assert (Hmove : 0 <= move)
        by (subst move; destruct (bool_decide (tag <> AFTERBURNER)); lra).
      assert (Hpm : 0 <= p * move) by (apply Qmult_le_0_compat; lra).
      rewrite Qabs_pos by lra. reflexivity.
    + split; [rewrite Heq; reflexivity|].
      split; [reflexivity|].
      split; [|split; ring].
      intros Hpos Hs.
      assert (Hmove : 0 <= move)
        by (subst move; destruct (bool_decide (tag <> AFTERBURNER)); lra).
      assert (Hpm : 0 <= p * move) by (apply Qmult_le_0_compat; lra).
      rewrite Qabs_neg by lra. field. lra.
  - eexists. split; [reflexivity|]. cbn. repeat split; reflexivity.
Qed.

Lemma paper_fill_formulas_witness :
  (exists row : trade_record,
     paper_fill default_bot sell 2 100.5 AFTERBURNER = Ok row /\
     exit_px row == 100.5 * (1 - 1.5 * spacing default_bot) /\
     gross_pct row == (100.5 - exit_px row) / 100.5 /\
     gross_pct row == Qabs (exit_px row - 100.5) / 100.5 /\
     net_pct row
     == gross_pct row - 2 * rate (fees default_bot) "maker" - 0.0002) /\
  (exists row : trade_record,
     paper_fill wide_bot buy 25000000000 (-20) DIP = Ok row /\
     exit_px row == (-20) * (1 + spacing wide_bot) /\
     gross_pct row == (exit_px row - (-20)) / (-20)).
Proof.
  split.
  - destruct (proj1 (paper_fill_formulas default_bot sell 2 100.5 AFTERBURNER))
      as (row & Hrow & Hexit & Hgross & Habs & Hnet & _);
      [vm_compute; discriminate|].
    exists row. split; [exact Hrow|]. split; [exact Hexit|].
    split; [exact Hgross|]. split; [|exact Hnet].
    apply Habs; vm_compute; first [reflexivity | discriminate].
  - destruct (proj1 (paper_fill_formulas wide_bot buy 25000000000 (-20) DIP))
      as (row & Hrow & Hexit & Hgross & _);
      [vm_compute; discriminate|].
    exists row. split; [exact Hrow|]. split; [exact Hexit|exact Hgross].
Defined.

(** C7, as stated, fails: a DIP cycle of a bot with two levels spaced 60%
    apart, at a price of 100, fills the buys of both levels; the second has
    entry -20 and exit -32, its gross fraction is 0.6, and |exit - p| / p is
    -0.6. *)
Lemma paper_fill_negative_entry_counterexample :
  phase (fst (_tick wide_bot dip_reply)) = DIP /\
  exists row1 row2 : trade_record,
    log_csv (fst (_tick wide_bot dip_reply)) = [row1; row2] /\
    side row2 = LONG /\
    entry_px row2 == -20 /\ exit_px row2 == -32 /\
    gross_pct row2 == 0.6 /\
    Qabs (exit_px row2 - entry_px row2) / entry_px row2 == -0.6.
Proof.
  split; [vm_compute; reflexivity|].
  eexists. eexists. split; [vm_compute; reflexivity|].
  repeat split; vm_compute; reflexivity.
Qed.

(** C4, evaluated on the code: the LUNCHBOX buy at 100 under the default
    schedule is logged with gross 0.005, fee_pct_rt 0.001 (the maker rate of
    one leg) and net 0.0028, while gross - fee_pct_rt - 0.0002 is 0.0038; the
    net column is gross minus twice the fee column minus 0.0002. *)
Theorem fill_fee_column_single_leg :
  exists row : trade_record,
    paper_fill default_bot buy 1 100 LUNCHBOX = Ok row /\
    gross_pct row == 0.005 /\
    fee_pct_rt row == 0.001 /\
    net_pct row == 0.0028 /\
    gross_pct row - fee_pct_rt row - 0.0002 == 0.0038 /\
    net_pct row == gross_pct row - 2 * fee_pct_rt row - 0.0002.
Proof.
  eexists. split; [reflexivity|]. cbn. repeat split; reflexivity.
Qed.

(** ** One cycle *)

Lemma set_log_csv_same (b : MidasBot) : set_log_csv b (log_csv b ++ []) = b.
Proof. destruct b. cbn. now rewrite app_nil_r. Qed.

Lemma set_fees_same (b : MidasBot) : set_fees b (fees b) = b.
Proof. now destruct b. Qed.

Lemma set_last_msg_same (b : MidasBot) : set_last_msg b (last_msg b) = b.
Proof. now destruct b. Qed.

Lemma fees_update_shape (b : MidasBot) (ex : exchange_reply) :
  exists f : gmap string Q, _fees_update b ex = set_fees b f.
Proof.
  unfold _fees_update.
  destruct (bool_decide (is_Some (fees b !! "manual"%string))).
  - exists (fees b). symmetry. apply set_fees_same.
  - destruct (fetch_trading_fee ex); [eexists; reflexivity|].
    destruct (market ex); [eexists; reflexivity|].
    exists (fees b). symmetry. apply set_fees_same.
Qed.

Lemma balances_update_shape (b : MidasBot) (ex : exchange_reply) :
  (exists v : Q, _balances_update b ex = (set_balance_quote b v, None)) \/
  _balances_update b ex = (b, Some IndexError).
Proof.
  unfold _balances_update.
  destruct (split_slash EmptyString (pair b) !! 1%nat); [left|now right].
  destruct (fetch_balance ex); eexists; reflexivity.
Qed.

Lemma price_shape (b : MidasBot) (ex : exchange_reply) :
  exists (m : status) (p : Q), _price b ex = (set_last_msg b m, p).
Proof.
  unfold _price. destruct (fetch_ticker ex) as [[last cl]|e].
  - exists (last_msg b). rewrite set_last_msg_same. eexists. reflexivity.
  - eexists. eexists. reflexivity.
Qed.

Lemma exec_orders_live (ex : exchange_reply) (tag : regime)
    (orders : list order) (b : MidasBot) :
  paper b = false -> exec_orders b ex tag orders = (b, None).
Proof.
  intro Hp. induction orders as [|[[sd q] px] rest IH]; cbn.
  - reflexivity.
  - now rewrite Hp.
Qed.

(** The loop over the orders appends rows for a prefix of them and touches
    nothing but the ledger. *)
Lemma exec_orders_log (ex : exchange_reply) (tag : regime)
    (orders : list order) :
  forall b : MidasBot,
  exists rows : list trade_record,
    fst (exec_orders b ex tag orders) = set_log_csv b (log_csv b ++ rows) /\
    map row_key rows `prefix_of` map order_key orders /\
    Forall (fun row => exists sd q px, paper_fill b sd q px tag = Ok row) rows.
Proof.
  induction orders as [|[[sd q] px] rest IH]; intro b.
  - exists []. cbn. rewrite set_log_csv_same.
    split; [reflexivity|]. split; [apply prefix_nil|constructor].
  - destruct (paper b) eqn:Hp.
    + cbn [exec_orders]. rewrite Hp. unfold _exec_paper.
      destruct (paper_fill b sd q px tag) as [row|e] eqn:Hf.
      * unfold _log_trade. destruct (log_error ex) as [e|].
        -- exists []. cbn. rewrite set_log_csv_same.
           split; [reflexivity|]. split; [apply prefix_nil|constructor].
        -- destruct (IH (set_log_csv b (log_csv b ++ [row])))
             as (rows & H1 & H2 & H3).
           exists (row :: rows). split; [|split].
           ++ rewrite H1. cbn. now rewrite <- app_assoc.
           ++ destruct (paper_fill_row _ _ _ _ _ _ Hf)
                as (_ & _ & _ & Hq & Hpx & _).
              cbn. unfold row_key at 1, order_key at 1. cbn.
              rewrite Hq, Hpx. now apply prefix_cons.
           ++ constructor; [now exists sd, q, px|].
              eapply Forall_impl; [exact H3|].
              intros r (sd' & q' & px' & Hr). exists sd', q', px'. exact Hr.
      * exists []. cbn. rewrite set_log_csv_same.
        split; [reflexivity|]. split; [apply prefix_nil|constructor].
    + rewrite exec_orders_live by assumption.
      exists []. cbn. rewrite set_log_csv_same.
      split; [reflexivity|]. split; [apply prefix_nil|constructor].
Qed.

Lemma exec_orders_rows (ex : exchange_reply) (tag : regime)
    (orders : list order) :
  forall b : MidasBot,
  exists rows : list trade_record,
    fst (exec_orders b ex tag orders) = set_log_csv b (log_csv b ++ rows) /\
    Forall (fun row => exists sd q px,
              In (sd, q, px) orders /\ paper_fill b sd q px tag = Ok row)
           rows.
Proof.
  induction orders as [|[[sd q] px] rest IH]; intro b.
  - exists []. cbn. rewrite set_log_csv_same. split; [reflexivity|constructor].
  - destruct (paper b) eqn:Hp.
    + cbn [exec_orders]. rewrite Hp. unfold _exec_paper.
      destruct (paper_fill b sd q px tag) as [row|e] eqn:Hf.
      * unfold _log_trade. destruct (log_error ex) as [e|].
        -- exists []. cbn. rewrite set_log_csv_same.
           split; [reflexivity|constructor].
        -- destruct (IH (set_log_csv b (log_csv b ++ [row])))
             as (rows & H1 & H2).
           exists (row :: rows). split.
           ++ rewrite H1. cbn. now rewrite <- app_assoc.
           ++ constructor; [exists sd, q, px; split; [now left|assumption]|].
              eapply Forall_impl; [exact H2|].
              intros r (sd' & q' & px' & Hin & Hr).
              exists sd', q', px'. split; [now right|exact Hr].
      * exists []. cbn. rewrite set_log_csv_same.
        split; [reflexivity|constructor].
    + rewrite exec_orders_live by assumption.
      exists []. cbn. rewrite set_log_csv_same.
      split; [reflexivity|constructor].
Qed.

(** A cycle leaves the settings alone and appends to the ledger rows for a
    prefix of the first two orders drawn for its regime. *)
Lemma tick_log (b : MidasBot) (ex : exchange_reply) :
  exists (b4 : MidasBot) (r : regime) (price : Q) (rows : list trade_record),
    fst (_tick b ex) = set_log_csv b4 (log_csv b4 ++ rows) /\
    same_settings b b4 /\
    log_csv b4 = log_csv b /\
    map row_key rows `prefix_of`
      map order_key (take 2 (regime_orders b4 r price)) /\
    Forall (fun row => exists sd q px, paper_fill b4 sd q px r = Ok row) rows.
Proof.
  assert (Hidle : forall b4 : MidasBot,
            same_settings b b4 -> log_csv b4 = log_csv b ->
            exists (b5 : MidasBot) (r : regime) (price : Q)
                   (rows : list trade_record),
              b4 = set_log_csv b5 (log_csv b5 ++ rows) /\
              same_settings b b5 /\ log_csv b5 = log_csv b /\
              map row_key rows `prefix_of`
                map order_key (take 2 (regime_orders b5 r price)) /\
              Forall (fun row => exists sd q px,
                                   paper_fill b5 sd q px r = Ok row) rows).
  { intros b4 Hs Hl. exists b4, SCOUT, 0, [].
    rewrite set_log_csv_same. repeat split; try apply Hs; try assumption.
    - apply prefix_nil.
    - constructor. }
  unfold _tick.
  destruct (fees_update_shape b ex) as [f ->].
  destruct (balances_update_shape (set_fees b f) ex) as [[v ->]| ->].
  2:{ apply Hidle; [repeat split|reflexivity]. }
  destruct (price_shape (set_balance_quote (set_fees b f) v) ex)
    as (m & p & ->).
  destruct (_regime (_ohlcv ex)) as [r|e].
  2:{ apply Hidle; [repeat split|reflexivity]. }
  match goal with
  | |- context [if ?c then _ else _] => destruct c
  end.
  { apply Hidle; [repeat split|reflexivity]. }
  match goal with
  | |- context [exec_orders ?b4 ex r ?os] =>
      destruct (exec_orders_log ex r os b4) as (rows & H1 & H2 & H3);
      exists b4, r, p, rows
  end.
  split; [exact H1|]. split; [repeat split|].
  split; [reflexivity|]. split; [exact H2|exact H3].
Qed.

Lemma In_take {A : Type} (n : nat) (l : list A) (x : A) :
  In x (take n l) -> In x l.
Proof.
  revert n. induction l as [|y l IH]; intros [|n]; cbn; try tauto.
  intros [->|H]; [now left|right; now apply (IH n)].
Qed.

Lemma regime_orders_In (b : MidasBot) (r : regime) (price : Q) (o : order) :
  In o (regime_orders b r price) -> In o (_plan_grid b price).
Proof.
  destruct r; cbn [regime_orders]; intro H; try assumption.
  - destruct H.
  - apply list_elem_of_In in H. apply list_elem_of_filter in H.
    apply list_elem_of_In. tauto.
  - apply list_elem_of_In in H. apply list_elem_of_filter in H.
    apply list_elem_of_In. tauto.
Qed.

Lemma candidate_share (b : MidasBot) (price : Q) (sd : order_side) (i : Z) :
  candidate_qty b price sd i * Qmax (level_price b price sd i) 1e-9
  == per_level b.
Proof.
  unfold candidate_qty.
  pose proof (floor_price_pos (level_price b price sd i)).
  field. lra.
Qed.

(** The price a cycle reads depends on the ticker alone. *)
Lemma price_value (b b' : MidasBot) (ex : exchange_reply) :
  snd (_price b ex) = snd (_price b' ex).
Proof.
  unfold _price. now destruct (fetch_ticker ex) as [[last cl]|e].
Qed.

(** The loop over the orders writes rows for a prefix of them, each the
    fill of one of them, and touches nothing but the ledger. *)
Lemma exec_orders_trace (ex : exchange_reply) (tag : regime)
    (orders : list order) :
  forall b : MidasBot,
  exists rows : list trade_record,
    fst (exec_orders b ex tag orders) = set_log_csv b (log_csv b ++ rows) /\
    map row_key rows `prefix_of` map order_key orders /\
    Forall (fun row => exists sd q px,
              In (sd, q, px) orders /\ paper_fill b sd q px tag = Ok row)
           rows.
Proof.
  induction orders as [|[[sd q] px] rest IH]; intro b.
  - exists []. cbn. rewrite set_log_csv_same.
    split; [reflexivity|]. split; [apply prefix_nil|constructor].
  - destruct (paper b) eqn:Hp.
    + cbn [exec_orders]. rewrite Hp. unfold _exec_paper.
      destruct (paper_fill b sd q px tag) as [row|e] eqn:Hf.
      * unfold _log_trade. destruct (log_error ex) as [e|].
        -- exists []. cbn. rewrite set_log_csv_same.
           split; [reflexivity|]. split; [apply prefix_nil|constructor].
        -- destruct (IH (set_log_csv b (log_csv b ++ [row])))
             as (rows & H1 & H2 & H3).
           exists (row :: rows). split; [|split].
           ++ rewrite H1. cbn. now rewrite <- app_assoc.
           ++ destruct (paper_fill_row _ _ _ _ _ _ Hf)
                as (_ & _ & _ & Hq & Hpx & _).
              cbn. unfold row_key at 1, order_key at 1. cbn.
              rewrite Hq, Hpx. now apply prefix_cons.
           ++ constructor; [exists sd, q, px; split; [now left|assumption]|].
              eapply Forall_impl; [exact H3|].
              intros r (sd' & q' & px' & Hin & Hr).
              exists sd', q', px'. split; [now right|exact Hr].
      * exists []. cbn. rewrite set_log_csv_same.
        split; [reflexivity|]. split; [apply prefix_nil|constructor].
    + rewrite exec_orders_live by assumption.
      exists []. cbn. rewrite set_log_csv_same.
      split; [reflexivity|]. split; [apply prefix_nil|constructor].
Qed.

(** What a cycle writes, in terms of the phase it stores and of the price
    it reads. *)
Lemma tick_trace (b : MidasBot) (ex : exchange_reply) :
  exists (b4 : MidasBot) (rows : list trade_record),
    fst (_tick b ex) = set_log_csv b4 (log_csv b4 ++ rows) /\
    same_settings b b4 /\
    log_csv b4 = log_csv b /\
    map row_key rows `prefix_of`
      map order_key
        (take 2 (regime_orders b4 (phase b4) (snd (_price b ex)))) /\
    Forall (fun row => exists sd q px,
              In (sd, q, px)
                 (take 2 (regime_orders b4 (phase b4) (snd (_price b ex)))) /\
              paper_fill b4 sd q px (phase b4) = Ok row)
           rows.
Proof.
  assert (Hidle : forall (b4 : MidasBot) (p : Q),
            same_settings b b4 -> log_csv b4 = log_csv b ->
            exists (b5 : MidasBot) (rows : list trade_record),
              b4 = set_log_csv b5 (log_csv b5 ++ rows) /\
              same_settings b b5 /\ log_csv b5 = log_csv b /\
              map row_key rows `prefix_of`
                map order_key (take 2 (regime_orders b5 (phase b5) p)) /\
              Forall (fun row => exists sd q px,
                        In (sd, q, px)
                           (take 2 (regime_orders b5 (phase b5) p)) /\
                        paper_fill b5 sd q px (phase b5) = Ok row)
                     rows).
  { intros b4 p Hs Hl. exists b4, [].
    rewrite set_log_csv_same. repeat split; try apply Hs; try assumption.
    - apply prefix_nil.
    - constructor. }
  unfold _tick.
  destruct (fees_update_shape b ex) as [f ->].
  destruct (balances_update_shape (set_fees b f) ex) as [[v ->]| ->].
  2:{ apply Hidle; [repeat split|reflexivity]. }
  rewrite (price_value b (set_balance_quote (set_fees b f) v) ex).
  destruct (price_shape (set_balance_quote (set_fees b f) v) ex)
    as (m & p & ->).
  cbn [snd].
  destruct (_regime (_ohlcv ex)) as [r|e].
  2:{ apply Hidle; [repeat split|reflexivity]. }
  match goal with
  | |- context [if ?c then _ else _] => destruct c
  end.
  { apply Hidle; [repeat split|reflexivity]. }
  match goal with
  | |- context [exec_orders ?b4 ex r ?os] =>
      destruct (exec_orders_trace ex r os b4) as (rows & H1 & H2 & H3);
      exists b4, rows
  end.
  split; [exact H1|]. split; [repeat split|].
  split; [reflexivity|]. split; [exact H2|exact H3].
Qed.

(** A product of two rounded factors against the product of the factors
    with their rounding allowances added. *)
Lemma rounded_product (c l rc rl ec el : Q) :
  0 <= rc -> rc <= c + ec -> rl <= l + el ->
  rc * rl <= Qmax 0 ((c + ec) * (l + el)).
Proof.
  intros H0 Hc Hl.
  pose proof (Q.le_max_l 0 ((c + ec) * (l + el))) as M0.
  pose proof (Q.le_max_r 0 ((c + ec) * (l + el))) as M1.
  destruct (Qlt_le_dec rl 0) as [Hneg|Hpos].
  - assert (H : 0 <= rc * (- rl)) by (apply Qmult_le_0_compat; lra).
    lra.
  - assert (H : 0 <= (c + ec - rc) * rl) by (apply Qmult_le_0_compat; lra).
    assert (H' : 0 <= (c + ec) * (l + el - rl))
      by (apply Qmult_le_0_compat; lra).
    lra.
Qed.

(** C5 (as amended).  A cycle appends to the ledger rows for a prefix of at
    most two orders: the first two, in order, of the list drawn for the
    regime the cycle stores as its phase from the planner's output at the
    ticker price (the whole output for LUNCHBOX and REGULAR, its sells for
    AFTERBURNER, its buys for DIP).  Each row records the quantity and the
    price of a level's order, rounded to 8 and to 4 decimals; with l the
    level's price before rounding and c its quantity before rounding, for
    which c * max(l, 1e-9) is min(budget, balance) / gridLevels, the
    notional of the row, qty * entry price, is at most
    (c + 0.000000005) * (l + 0.00005), or zero when that is negative. *)
Theorem tick_acts_on_two (b : MidasBot) (ex : exchange_reply) :
  exists rows : list trade_record,
    log_csv (fst (_tick b ex)) = log_csv b ++ rows /\
    (length rows <= 2)%nat /\
    map row_key rows `prefix_of`
      map order_key
        (take 2 (regime_orders (fst (_tick b ex)) (phase (fst (_tick b ex)))
                   (snd (_price b ex)))) /\
    Forall
      (fun row =>
         exists (sd : order_side) (i : Z),
           (1 <= i <= grids b)%Z /\
           qty row
           = round (candidate_qty (fst (_tick b ex)) (snd (_price b ex)) sd i)
               8 /\
           entry_px row
           = round (level_price (fst (_tick b ex)) (snd (_price b ex)) sd i)
               4 /\
           candidate_qty (fst (_tick b ex)) (snd (_price b ex)) sd i
           * Qmax (level_price (fst (_tick b ex)) (snd (_price b ex)) sd i)
               1e-9
           == per_level (fst (_tick b ex)) /\
           qty row * entry_px row
           <= Qmax 0
                ((candidate_qty (fst (_tick b ex)) (snd (_price b ex)) sd i
                  + 0.000000005)
                 * (level_price (fst (_tick b ex)) (snd (_price b ex)) sd i
                    + 0.00005)))
      rows.
Proof.
  destruct (tick_trace b ex) as (b4 & rows & Hb & Hs & Hl & Hpre & HF).
  set (price := snd (_price b ex)) in *.
  exists rows. rewrite Hb.
  change (regime_orders (set_log_csv b4 (log_csv b4 ++ rows))
            (phase (set_log_csv b4 (log_csv b4 ++ rows))) price)
    with (regime_orders b4 (phase b4) price).
  change (log_csv (set_log_csv b4 (log_csv b4 ++ rows)))
    with (log_csv b4 ++ rows).
  split; [now rewrite Hl|]. split; [|split; [exact Hpre|]].
  - apply prefix_length in Hpre. rewrite !length_map, length_take in Hpre.
    lia.
  - eapply Forall_impl; [exact HF|].
    intros row (sd & q & px & Hin & Hfill).
    apply In_take, regime_orders_In, plan_grid_In in Hin.
    destruct Hin as (Hbud & Hgr & _ & sd' & i & Hi & _ & Heq).
    destruct (paper_fill_row _ _ _ _ _ _ Hfill)
      as (_ & _ & _ & Hq & Hpx & _).
    unfold level_order in Heq. injection Heq as _ Hq' Hpx'.
    exists sd', i.
    change (candidate_qty (set_log_csv b4 (log_csv b4 ++ rows)) price sd' i)
      with (candidate_qty b4 price sd' i).
    change (level_price (set_log_csv b4 (log_csv b4 ++ rows)) price sd' i)
      with (level_price b4 price sd' i).
    change (per_level (set_log_csv b4 (log_csv b4 ++ rows)))
      with (per_level b4).
    destruct Hs as (_ & _ & _ & Hg & _).
    split; [lia|]. split; [congruence|]. split; [congruence|].
    split; [apply candidate_share|].
    rewrite Hq, Hpx, Hq', Hpx'.
    pose proof (candidate_qty_pos b4 price sd' i (per_level_pos b4 Hbud Hgr))
      as Hc.
    pose proof (round_error (candidate_qty b4 price sd' i) 8) as E8.
    pose proof (round_error (level_price b4 price sd' i) 4) as E4.
    assert (X8 : (1 # 2) / pow10 8 == 0.000000005) by reflexivity.
    assert (X4 : (1 # 2) / pow10 4 == 0.00005) by reflexivity.
    rewrite X8 in E8. rewrite X4 in E4.
    apply Qabs_Qle_condition in E8, E4.
    apply rounded_product.
    + apply round_nonneg. lra.
    + lra.
    + lra.
Qed.

(** C5, as stated, fails: with a single level the REGULAR cycle fills the
    buy and the sell of that level, 50 each against a budget of 50; with two
    levels at a price of 0.00016 both level prices are written as 0.0002 and
    the two rows come to more than 62 against a budget of 50; and in an
    AFTERBURNER cycle the two orders acted on are the first two sells, while
    the planner's list starts with a buy. *)
Lemma tick_budget_counterexample :
  phase (fst (_tick single_level_bot steady_reply)) = REGULAR /\
  length (log_csv (fst (_tick single_level_bot steady_reply))) = 2%nat /\
  effective_budget (fst (_tick single_level_bot steady_reply)) == 50 /\
  99 < notional (log_csv (fst (_tick single_level_bot steady_reply))) /\
  phase (fst (_tick two_level_bot small_price_reply)) = REGULAR /\
  map entry_px (log_csv (fst (_tick two_level_bot small_price_reply)))
    = [0.0002; 0.0002] /\
  effective_budget (fst (_tick two_level_bot small_price_reply)) == 50 /\
  62 < notional (log_csv (fst (_tick two_level_bot small_price_reply))) /\
  map (fun o => fst (fst o)) (take 2 (regime_orders default_bot AFTERBURNER 100))
    = [sell; sell] /\
  map (fun o => fst (fst o)) (take 2 (_plan_grid default_bot 100))
    = [buy; sell].
Proof.
  repeat split; vm_compute; reflexivity.
Qed.

(** C3, evaluated on the code: a bot started with maker 0.0005 and taker
    0.0007 holds no ["manual"] key, and the first fee refresh against an
    exchange quoting 0.0016 / 0.0026 replaces both overridden rates. *)
Theorem manual_fees_overwritten :
  fees manual_bot !! "maker"%string = Some 0.0005 /\
  fees manual_bot !! "taker"%string = Some 0.0007 /\
  fees manual_bot !! "manual"%string = None /\
  fees (_fees_update manual_bot fee_reply) !! "maker"%string = Some 0.0016 /\
  fees (_fees_update manual_bot fee_reply) !! "taker"%string = Some 0.0026.
Proof.
  repeat split; vm_compute; reflexivity.
Qed.

(** ** The scheduler loop *)

Lemma tick_settings (b : MidasBot) (ex : exchange_reply) :
  same_settings b (fst (_tick b ex)).
Proof.
  destruct (tick_log b ex) as (b4 & r & price & rows & -> & Hs & _).
  exact Hs.
Qed.

Lemma guarded_tick_settings (b : MidasBot) (ex : exchange_reply) :
  same_settings b (guarded_tick b ex).
Proof.
  pose proof (tick_settings b ex) as Hs. unfold guarded_tick.
  destruct (_tick b ex) as [b' [e|]]; exact Hs.
Qed.

Lemma guarded_tick_log (b : MidasBot) (ex : exchange_reply) :
  log_csv (guarded_tick b ex) = log_csv (fst (_tick b ex)).
Proof.
  unfold guarded_tick. now destruct (_tick b ex) as [b' [e|]].
Qed.


Lemma sleep_raises (secs : Z) :
  (9223372037 <= secs)%Z -> sleep secs = Some OverflowError.
Proof.
  intro H. unfold sleep.
  destruct (Z.leb_spec 9223372037 secs) as [_|Hlt]; [reflexivity|lia].
Qed.


(** The state the body leaves is that of the guarded cycle, but for the
    stop flag. *)
Lemma loop_body_state (b : MidasBot) (c : cycle) :
  fst (loop_body b c) = guarded_tick b (reply c) \/
  fst (loop_body b c) = set_stop_flag (guarded_tick b (reply c)) true.
Proof.
  unfold loop_body. cbv zeta.
  destruct (sleep (Z.max 5 (tick (guarded_tick b (reply c)))));
    [now left|].
  destruct (stop_request c); [now right|now left].
Qed.

Lemma run_loop_stopped (b : MidasBot) (cycles : list cycle) :
  stop_flag b = true -> _run_loop b cycles = (b, (0%nat, None)).
Proof.
  intro H. destruct cycles; cbn; now rewrite H.
Qed.

Lemma run_loop_step (b : MidasBot) (c : cycle) (rest : list cycle) :
  stop_flag b = false -> snd (loop_body b c) = None ->
  _run_loop b (c :: rest)
  = (fst (_run_loop (fst (loop_body b c)) rest),
     (S (fst (snd (_run_loop (fst (loop_body b c)) rest))),
      snd (snd (_run_loop (fst (loop_body b c)) rest)))).
Proof.
  intros H Hn. cbn [_run_loop]. rewrite H.
  destruct (loop_body b c) as [b1 [e|]]; [discriminate|]. cbn [fst].
  now destruct (_run_loop b1 rest) as [b' [n e]].
Qed.

Lemma run_loop_raise (b : MidasBot) (c : cycle) (rest : list cycle)
    (e : exn) :
  stop_flag b = false -> snd (loop_body b c) = Some e ->
  _run_loop b (c :: rest) = (fst (loop_body b c), (1%nat, Some e)).
Proof.
  intros H He. cbn [_run_loop]. rewrite H.
  destruct (loop_body b c) as [b1 [e'|]]; [|discriminate].
  cbn in He. injection He as ->. reflexivity.
Qed.




(** * Further properties of the code *)

(** ** Smoothed averages *)

Lemma smooth_eq (k s v : Q) : smooth k s v == (v - s) * k + s.
Proof. unfold smooth. apply Qred_correct. Qed.

Lemma smooth_between (k s v lo hi : Q) :
  0 <= k <= 1 -> lo <= s <= hi -> lo <= v <= hi ->
  lo <= smooth k s v <= hi.
Proof.
  intros Hk Hs Hv. rewrite smooth_eq.
  assert (0 <= k * (v - lo)) by (apply Qmult_le_0_compat; lra).
  assert (0 <= (1 - k) * (s - lo)) by (apply Qmult_le_0_compat; lra).
  assert (0 <= k * (hi - v)) by (apply Qmult_le_0_compat; lra).
  assert (0 <= (1 - k) * (hi - s)) by (apply Qmult_le_0_compat; lra).
  split; lra.
Qed.

Lemma ema_go_between (k lo hi : Q) (vs : list Q) :
  0 <= k <= 1 ->
  Forall (fun v => lo <= v <= hi) vs ->
  forall s : Q, lo <= s <= hi ->
    Forall (fun x => lo <= x <= hi) (ema_go k s vs).
Proof.
  intros Hk Hvs. induction Hvs as [|v vs Hv _ IH]; intros s Hs; cbn.
  - constructor.
  - pose proof (smooth_between k s v lo hi Hk Hs Hv).
    constructor; [assumption|]. now apply IH.
Qed.

Lemma ema_weight_unit (n : Z) : (1 < n)%Z -> 0 <= 2 / (inject_Z n + 1) <= 1.
Proof.
  intro Hn.
  assert (H2 : 2 <= inject_Z n).
  { replace 2 with (inject_Z 2) by reflexivity. rewrite <- Zle_Qle. lia. }
  split.
  - apply Qle_shift_div_l; lra.
  - apply Qle_shift_div_r; lra.
Qed.

Lemma ema_go_length (k s : Q) (vs : list Q) :
  length (ema_go k s vs) = length vs.
Proof.
  revert s. induction vs as [|v vs IH]; intro s; cbn; [reflexivity|].
  now rewrite IH.
Qed.

(** [ema_list] gives one output per input and starts from the first input,
    whatever the span. *)
Theorem ema_list_length_head (values : list Q) (n : Z) :
  length (ema_list values n) = length values /\
  head (ema_list values n) = head values.
Proof.
  unfold ema_list. destruct values as [|v0 rest]; [now split|].
  destruct (n <=? 1)%Z; [now split|].
  cbn. now rewrite ema_go_length.
Qed.

(** The smoothed series never leaves the range of its inputs: if every
    input lies in [lo, hi], so does every output, whatever the span. *)
Theorem ema_list_within_range (values : list Q) (n : Z) (lo hi : Q) :
  Forall (fun v => lo <= v <= hi) values ->
  Forall (fun x => lo <= x <= hi) (ema_list values n).
Proof.
  intro H. unfold ema_list. destruct values as [|v0 rest]; [constructor|].
  destruct (Z.leb_spec n 1) as [_|Hn]; [assumption|].
  inversion H as [|? ? H0 Hrest]; subst.
  constructor; [assumption|].
  apply ema_go_between; [now apply ema_weight_unit|assumption|assumption].
Qed.

Lemma ema_list_within_range_witness :
  Forall (fun x => 1 <= x <= 3) (ema_list [1; 3; 2] 12).
Proof.
  apply (ema_list_within_range [1; 3; 2] 12 1 3).
  repeat constructor; vm_compute; discriminate.
Defined.

(** ** Relative strength *)

Lemma fold_left_ext_in {A B : Type} (f g : A -> B -> A) (l : list B) :
  (forall (a : A) (x : B), In x l -> f a x = g a x) ->
  forall a : A, fold_left f l a = fold_left g l a.
Proof.
  induction l as [|x l IH]; intros H a; cbn; [reflexivity|].
  rewrite (H a x) by now left.
  apply IH. intros a' y Hy. apply H. now right.
Qed.

Lemma rsi_sums_app (values more : list Q) (n : nat) :
  (n + 1 <= length values)%nat ->
  rsi_sums (values ++ more) n = rsi_sums values n.
Proof.
  intro Hlen. unfold rsi_sums. apply fold_left_ext_in.
  intros acc i Hi. apply List.in_seq in Hi. unfold rsi_step.
  rewrite !(List.app_nth1 values more) by lia. reflexivity.
Qed.

(** The oscillator reads the first [n + 1] values only: values that come
    after them never change its answer. *)
Theorem rsi_list_oldest_window (values more : list Q) (n : nat) :
  (n + 1 <= length values)%nat ->
  rsi_list (values ++ more) n = rsi_list values n.
Proof.
  intro Hlen. unfold rsi_list.
  rewrite rsi_sums_app by assumption.
  destruct (Nat.ltb_spec (length values) (n + 1)) as [|_]; [lia|].
  destruct (Nat.ltb_spec (length (values ++ more)) (n + 1)) as [Hlt|_];
    [rewrite length_app in Hlt; lia|].
  reflexivity.
Qed.

Lemma rsi_list_oldest_window_witness :
  rsi_list ([1; 2; 1; 3] ++ [100; 0]) 3 = rsi_list [1; 2; 1; 3] 3.
Proof.
  apply (rsi_list_oldest_window [1; 2; 1; 3] [100; 0] 3). cbn. lia.
Defined.

(** Below [n + 1] values the answer is [None]; from there on, with a
    positive window, it is a number between 0 and 100. *)
Theorem rsi_list_range (values : list Q) (n : nat) :
  ((length values < n + 1)%nat -> rsi_list values n = Ok None) /\
  ((0 < n)%nat -> (n + 1 <= length values)%nat ->
   exists r : Q, rsi_list values n = Ok (Some r) /\ 0 <= r <= 100).
Proof.
  split.
  - intro H. unfold rsi_list.
    destruct (Nat.ltb_spec (length values) (n + 1)); [reflexivity|lia].
  - intros Hn Hlen. unfold rsi_list.
    destruct (Nat.ltb_spec (length values) (n + 1)) as [Hlt|_]; [lia|].
    destruct (rsi_sums_nonneg values n) as [Hg Hl].
    set (gains := fst (rsi_sums values n)) in *.
    set (losses := snd (rsi_sums values n)) in *.
    assert (Hn0 : 0 < inject_Z (Z.of_nat n)).
    { replace 0 with (inject_Z 0) by reflexivity. rewrite <- Zlt_Qlt. lia. }
    rewrite (pydiv_ok gains) by lra. cbn [bind].
    destruct (Qltb 0 losses) eqn:El.
    + apply Qltb_lt in El.
      rewrite (pydiv_ok losses) by lra. cbn [bind].
      assert (Hal : 0 < losses / inject_Z (Z.of_nat n))
        by (apply Qlt_shift_div_l; lra).
      destruct (Qeqb (losses / inject_Z (Z.of_nat n)) 0) eqn:Ez.
      * apply Qeqb_eq in Ez. lra.
      * rewrite pydiv_ok by lra. cbn [bind].
        set (rs := gains / inject_Z (Z.of_nat n)
                   / (losses / inject_Z (Z.of_nat n))).
        assert (Hrs : 0 <= rs).
        { apply Qle_shift_div_l; [assumption|].
          rewrite Qmult_0_l. apply Qle_shift_div_l; lra. }
        rewrite pydiv_ok by lra. cbn [bind].
        eexists. split; [reflexivity|].
        assert (0 < 100 / (1 + rs)) by (apply Qlt_shift_div_l; lra).
        assert (100 / (1 + rs) <= 100) by (apply Qle_shift_div_r; lra).
        split; lra.
    + cbn [bind]. change (Qeqb 0 0) with true. cbn.
      eexists. split; [reflexivity|]. split; [discriminate|apply Qle_refl].
Qed.

Lemma rsi_list_range_witness :
  exists r : Q, rsi_list [1; 2; 1; 3] 3 = Ok (Some r) /\ 0 <= r <= 100.
Proof.
  apply (proj2 (rsi_list_range [1; 2; 1; 3] 3)); cbn; lia.
Defined.

Lemma rsi_fold_no_loss (values : list Q) (idx : list nat) :
  (forall i : nat, In i idx -> nth (i - 1) values 0 <= nth i values 0) ->
  forall g : Q, snd (fold_left (rsi_step values) idx (g, 0)) = 0.
Proof.
  induction idx as [|i idx IH]; intros H g; cbn [fold_left]; [reflexivity|].
  unfold rsi_step at 2. cbn [fst snd].
  assert (Hd : Qleb 0 (nth i values 0 - nth (i - 1) values 0) = true).
  { apply Qleb_le. pose proof (H i (or_introl eq_refl)). lra. }
  rewrite Hd. apply IH. intros j Hj. apply H. now right.
Qed.

(** A window in which no value falls, a flat one included, reads 100. *)
Theorem rsi_list_no_fall (values : list Q) (n : nat) :
  (0 < n)%nat -> (n + 1 <= length values)%nat ->
  (forall i : nat, (1 <= i <= n)%nat ->
     nth (i - 1) values 0 <= nth i values 0) ->
  rsi_list values n = Ok (Some 100).
Proof.
  intros Hn Hlen Hup. unfold rsi_list.
  destruct (Nat.ltb_spec (length values) (n + 1)) as [Hlt|_]; [lia|].
  assert (Hl : snd (rsi_sums values n) = 0).
  { unfold rsi_sums. apply rsi_fold_no_loss.
    intros i Hi. apply List.in_seq in Hi. apply Hup. lia. }
  rewrite Hl.
  assert (Hn0 : 0 < inject_Z (Z.of_nat n)).
  { replace 0 with (inject_Z 0) by reflexivity. rewrite <- Zlt_Qlt. lia. }
  rewrite pydiv_ok by lra. reflexivity.
Qed.

Lemma rsi_list_no_fall_witness :
  rsi_list (map close steady_series) 14 = Ok (Some 100).
Proof.
  apply (rsi_list_no_fall (map close steady_series) 14).
  - lia.
  - vm_compute. lia.
  - intros i Hi.
    assert (Hc : (i = 1 \/ i = 2 \/ i = 3 \/ i = 4 \/ i = 5 \/ i = 6
                  \/ i = 7 \/ i = 8 \/ i = 9 \/ i = 10 \/ i = 11 \/ i = 12
                  \/ i = 13 \/ i = 14)%nat) by lia.
    repeat (destruct Hc as [->|Hc]; [vm_compute; discriminate|]).
    subst i. vm_compute. discriminate.
Defined.

(** ** Normalized volatility *)

Lemma smooth_nonneg (k s v : Q) :
  0 <= k <= 1 -> 0 <= s -> 0 <= v -> 0 <= smooth k s v.
Proof.
  intros Hk Hs Hv. rewrite smooth_eq.
  assert (0 <= k * v) by (apply Qmult_le_0_compat; lra).
  assert (0 <= (1 - k) * s) by (apply Qmult_le_0_compat; lra).
  lra.
Qed.

Lemma fold_smooth_nonneg (k : Q) (vs : list Q) :
  0 <= k <= 1 -> Forall (fun v => 0 <= v) vs ->
  forall s : Q, 0 <= s -> 0 <= fold_left (smooth k) vs s.
Proof.
  intros Hk Hvs. induction Hvs as [|v vs Hv _ IH]; intros s Hs; cbn.
  - assumption.
  - apply IH. now apply smooth_nonneg.
Qed.

Lemma true_ranges_nonneg (pc : Q) (rows : list candle) :
  Forall (fun v => 0 <= v) (true_ranges pc rows).
Proof.
  revert pc. induction rows as [|c rows IH]; intro pc; cbn [true_ranges];
    constructor.
  - pose proof (Qabs_nonneg (low c - pc)).
    pose proof (Q.le_max_r (Qmax (high c - low c) (Qabs (high c - pc)))
                           (Qabs (low c - pc))).
    lra.
  - apply IH.
Qed.

Lemma window_weight_unit (n : nat) :
  (0 < n)%nat -> 0 <= 2 / (inject_Z (Z.of_nat n) + 1) <= 1.
Proof.
  intro Hn.
  assert (H1 : 1 <= inject_Z (Z.of_nat n)).
  { replace 1 with (inject_Z 1) by reflexivity. rewrite <- Zle_Qle. lia. }
  split.
  - apply Qle_shift_div_l; lra.
  - apply Qle_shift_div_r; lra.
Qed.

Lemma last_In {A : Type} (x : A) (l : list A) : In (List.last (x :: l) x) (x :: l).
Proof.
  revert x. induction l as [|y l IH]; intro x.
  - now left.
  - right. change (List.last (x :: y :: l) x) with (List.last (y :: l) x).
    destruct l as [|z l]; [now left|].
    specialize (IH y).
    change (List.last (y :: z :: l) x) with (List.last (z :: l) x).
    change (List.last (y :: z :: l) y) with (List.last (z :: l) y) in IH.
    assert (E : forall d d' : A, List.last (z :: l) d = List.last (z :: l) d').
    { clear. revert z. induction l as [|w l IHl]; intros z d d';
        [reflexivity|].
      change (List.last (z :: w :: l) d) with (List.last (w :: l) d).
      change (List.last (z :: w :: l) d') with (List.last (w :: l) d').
      apply IHl. }
    rewrite (E x y). exact IH.
Qed.

(** With a positive window [atrp_list] never raises; a series shorter than
    [n + 1] candles reads 0, and closes that are not negative give a
    volatility that is not negative. *)
Theorem atrp_list_total (ohlcv : list candle) (n : nat) :
  (0 < n)%nat ->
  exists v : Q,
    atrp_list ohlcv n = Ok v /\
    ((length ohlcv < n + 1)%nat -> v = 0) /\
    (Forall (fun c => 0 <= close c) ohlcv -> 0 <= v).
Proof.
  intro Hn. unfold atrp_list.
  destruct (Nat.ltb_spec (length ohlcv) (n + 1)) as [Hlt|Hge].
  - exists 0. split; [reflexivity|]. split; [reflexivity|].
    intros _. apply Qle_refl.
  - destruct ohlcv as [|c0 rows]; [cbn in Hge; lia|].
    pose proof (true_ranges_nonneg (close c0) rows) as Htr.
    destruct (true_ranges (close c0) rows) as [|t0 trs] eqn:E.
    + apply (f_equal (@length Q)) in E. rewrite true_ranges_length in E.
      cbn in Hge, E. lia.
    + eexists. split; [reflexivity|]. split; [lia|].
      intro Hc. inversion Htr as [|? ? Ht0 Htrs]; subst.
      pose proof (fold_smooth_nonneg _ trs (window_weight_unit n Hn) Htrs
                    t0 Ht0) as Hs.
      assert (Hlast : 0 <= close (List.last (c0 :: rows) c0)).
      { pose proof (last_In c0 rows) as Hin.
        rewrite Forall_forall in Hc. apply Hc.
        now apply list_elem_of_In. }
      destruct (Qeqb (close (List.last (c0 :: rows) c0)) 0) eqn:Ez.
      * apply Qle_shift_div_l; lra.
      * apply Qeqb_neq in Ez. apply Qle_shift_div_l; lra.
Qed.

Lemma atrp_list_total_witness :
  exists v : Q,
    atrp_list steady_series 14 = Ok v /\
    ((length steady_series < 14 + 1)%nat -> v = 0) /\
    (Forall (fun c => 0 <= close c) steady_series -> 0 <= v).
Proof.
  apply (atrp_list_total steady_series 14). lia.
Defined.

(** ** The classifier on market prices *)

Lemma positive_bounds (l : list Q) :
  Forall (fun v => 0 < v) l ->
  exists lo hi : Q, 0 < lo /\ Forall (fun v => lo <= v <= hi) l.
Proof.
  induction 1 as [|v l Hv _ (lo & hi & Hlo & IH)].
  - exists 1, 1. split; [reflexivity|constructor].
  - exists (Qmin v lo), (Qmax v hi).
    pose proof (Q.le_min_l v lo). pose proof (Q.le_min_r v lo).
    pose proof (Q.le_max_l v hi). pose proof (Q.le_max_r v hi).
    split; [apply Q.min_glb_lt; assumption|].
    constructor; [split; assumption|].
    eapply Forall_impl; [exact IH|]. cbn. intros x [Hx1 Hx2]. split; lra.
Qed.

Lemma ema_list_last_between (v0 : Q) (rest : list Q) (n : Z) (lo hi : Q) :
  Forall (fun v => lo <= v <= hi) (v0 :: rest) ->
  exists x : Q, last_item (ema_list (v0 :: rest) n) = Ok x /\ lo <= x <= hi.
Proof.
  intro H.
  assert (HF : Forall (fun x => lo <= x <= hi) (ema_list (v0 :: rest) n)).
  { unfold ema_list. destruct (Z.leb_spec n 1) as [_|Hn]; [assumption|].
    inversion H as [|? ? H0 Hrest]; subst.
    constructor; [assumption|].
    apply ema_go_between; [now apply ema_weight_unit|assumption|assumption]. }
  assert (Hne : exists y ys, ema_list (v0 :: rest) n = y :: ys).
  { unfold ema_list. destruct (n <=? 1)%Z; eexists; eexists; reflexivity. }
  destruct Hne as (y & ys & E). rewrite E in *.
  exists (List.last (y :: ys) y). split; [apply last_item_cons|].
  rewrite Forall_forall in HF. apply HF.
  apply list_elem_of_In. apply last_In.
Qed.

(** On candles whose closes are all positive the classifier never raises:
    it always answers with a regime. *)
Theorem regime_total_on_prices (ohlcv : list candle) :
  Forall (fun c => 0 < close c) ohlcv ->
  exists r : regime, _regime ohlcv = Ok r.
Proof.
  intro Hpos. unfold _regime.
  destruct (Nat.ltb_spec (length ohlcv) 50) as [_|Hlen];
    [eexists; reflexivity|].
  destruct ohlcv as [|c0 rows]; [cbn in Hlen; lia|].
  assert (Hcl : Forall (fun v => 0 < v) (map close (c0 :: rows))).
  { apply Forall_map. exact Hpos. }
  destruct (positive_bounds _ Hcl) as (lo & hi & Hlo & Hb).
  change (map close (c0 :: rows)) with (close c0 :: map close rows) in *.
  destruct (ema_list_last_between _ _ 12 lo hi Hb) as (fast & Hf & _).
  destruct (ema_list_last_between _ _ 48 lo hi Hb) as (slow & Hs & Hsb).
  cbv zeta. rewrite Hf, Hs. cbn [bind].
  assert (0 < 1e-12) by reflexivity.
  rewrite pydiv_ok by lra. cbn [bind].
  destruct (atrp_list_value (c0 :: rows) 14) as [vol ->]; [lia|].
  cbn [bind].
  destruct (rsi_list_value (close c0 :: map close rows) 14) as [rsi ->];
    [lia | cbn; rewrite length_map; cbn in Hlen; lia |].
  cbn [bind]. eexists. reflexivity.
Qed.

Lemma regime_total_on_prices_witness :
  exists r : regime, _regime falling_series = Ok r.
Proof.
  apply (regime_total_on_prices falling_series).
  apply Forall_forall. intros c Hc. apply list_elem_of_In in Hc.
  unfold falling_series in Hc. apply List.in_app_or in Hc.
  destruct Hc as [Hc|[<-|[]]].
  - apply List.repeat_spec in Hc. subst c. reflexivity.
  - reflexivity.
Defined.

(** ** What a paper fill records *)

(** Whatever the side, the quantity, the price and the level of the order,
    a fill records the target move as its gross fraction (the spacing,
    times 1.5 for AFTERBURNER), that move less two maker legs and 0.0002 as
    its net fraction, and qty * entry * (move - 2m - m*move) as the profit
    of a long, qty * entry * (move - 2m + m*move) of a short: the slippage
    allowance is charged to the net fraction only. *)
Theorem paper_fill_by_move (b : MidasBot) (sd : order_side) (q px : Q)
    (tag : regime) (row : trade_record) :
  paper_fill b sd q px tag = Ok row ->
  gross_pct row == target_move b tag /\
  net_pct row == target_move b tag - 2 * rate (fees b) "maker" - 0.0002 /\
  pnl_usd row ==
    q * px * (target_move b tag - 2 * rate (fees b) "maker"
              + (match sd with buy => -1 | sell => 1 end)
                * rate (fees b) "maker" * target_move b tag).
Proof.
  intro H. destruct (paper_fill_row _ _ _ _ _ _ H) as (Hpx & _).
  unfold paper_fill in H. cbv zeta in H. fold (target_move b tag) in H.
  rewrite !pydiv_ok in H by assumption. cbn [bind] in H.
  destruct sd; injection H as <-; cbn [gross_pct net_pct pnl_usd].
  - assert (E : (px * (1 + target_move b tag) - px) / px
                == target_move b tag) by (field; assumption).
    split; [exact E|]. split; [rewrite E; ring|ring].
  - assert (E : (px - px * (1 - target_move b tag)) / px
                == target_move b tag) by (field; assumption).
    split; [exact E|]. split; [rewrite E; ring|ring].
Qed.

Lemma paper_fill_by_move_witness :
  exists row : trade_record,
    paper_fill thin_bot buy 1 99.5 REGULAR = Ok row /\
    gross_pct row == target_move thin_bot REGULAR /\
    net_pct row
      == target_move thin_bot REGULAR - 2 * rate (fees thin_bot) "maker"
         - 0.0002 /\
    net_pct row < 0.
Proof.
  eexists. split; [reflexivity|].
  split; [|split].
  - apply (paper_fill_by_move thin_bot buy 1 99.5 REGULAR). reflexivity.
  - apply (paper_fill_by_move thin_bot buy 1 99.5 REGULAR). reflexivity.
  - vm_compute. reflexivity.
Defined.

(** An entry price of zero makes the fill raise a division error, and the
    ledger is left as it was. *)
Theorem exec_paper_zero_price (b : MidasBot) (ex : exchange_reply)
    (sd : order_side) (q px : Q) (tag : regime) :
  px == 0 ->
  _exec_paper b ex sd q px tag = (b, Some ZeroDivisionError).
Proof.
  intro H. unfold _exec_paper. now rewrite paper_fill_raises.
Qed.

Lemma exec_paper_zero_price_witness :
  _exec_paper default_bot steady_reply buy 1 (0 # 7) LUNCHBOX
  = (default_bot, Some ZeroDivisionError).
Proof.
  apply (exec_paper_zero_price default_bot steady_reply buy 1 (0 # 7)).
  reflexivity.
Defined.

(** ** When a cycle leaves the ledger alone *)

(** The classifier raises nothing but a division error. *)
Lemma regime_raise (ohlcv : list candle) (e : exn) :
  _regime ohlcv = Raise e -> e = ZeroDivisionError.
Proof.
  unfold _regime.
  destruct (Nat.ltb_spec (length ohlcv) 50) as [?|Hlen]; [discriminate|].
  destruct ohlcv as [|c0 rows]; [cbn in Hlen; lia|].
  cbv zeta.
  change (map close (c0 :: rows)) with (close c0 :: map close rows).
  destruct (ema_list_last (close c0) (map close rows) 12) as [fast ->].
  destruct (ema_list_last (close c0) (map close rows) 48) as [slow ->].
  cbn [bind]. unfold pydiv.
  destruct (Qeqb (slow + 1e-12) 0); cbn [bind];
    [intro H; now injection H|].
  destruct (atrp_list_value (c0 :: rows) 14) as [vol ->]; [lia|].
  cbn [bind].
  destruct (rsi_list_value (close c0 :: map close rows) 14) as [rsi ->];
    [lia | cbn [length]; rewrite length_map; cbn [length] in Hlen; lia |].
  cbn [bind]. discriminate.
Qed.

(** In live mode a cycle never writes to the ledger, and all it can raise
    is the index error of the balance refresh or the division error of the
    classifier. *)
Theorem tick_live_writes_nothing (b : MidasBot) (ex : exchange_reply) :
  paper b = false ->
  log_csv (fst (_tick b ex)) = log_csv b /\
  (snd (_tick b ex) = None \/ snd (_tick b ex) = Some IndexError \/
   snd (_tick b ex) = Some ZeroDivisionError).
Proof.
  intro Hp. unfold _tick.
  destruct (fees_update_shape b ex) as [f ->].
  destruct (balances_update_shape (set_fees b f) ex) as [[v ->]| ->];
    [|split; [reflexivity|right; now left]].
  destruct (price_shape (set_balance_quote (set_fees b f) v) ex)
    as (m & p & ->).
  destruct (_regime (_ohlcv ex)) as [r|e] eqn:Er.
  - match goal with
    | |- context [if ?c then _ else _] => destruct c
    end; [split; [reflexivity|now left]|].
    rewrite exec_orders_live by exact Hp.
    split; [reflexivity|now left].
  - split; [reflexivity|].
    apply regime_raise in Er. subst e. right. now right.
Qed.

Lemma tick_live_writes_nothing_witness :
  log_csv (fst (_tick (__init__ "BTC/USD" false 50 8 0.005 0.002 15 None)
                      steady_reply))
  = log_csv (__init__ "BTC/USD" false 50 8 0.005 0.002 15 None) /\
  (snd (_tick (__init__ "BTC/USD" false 50 8 0.005 0.002 15 None)
              steady_reply) = None \/
   snd (_tick (__init__ "BTC/USD" false 50 8 0.005 0.002 15 None)
              steady_reply) = Some IndexError \/
   snd (_tick (__init__ "BTC/USD" false 50 8 0.005 0.002 15 None)
              steady_reply) = Some ZeroDivisionError).
Proof.
  apply (tick_live_writes_nothing
           (__init__ "BTC/USD" false 50 8 0.005 0.002 15 None) steady_reply).
  reflexivity.
Defined.

(** Without data a cycle does not trade: when the candles are fewer than 50
    (a failed fetch gives none), or the ticker cannot be read, or the balance
    cannot be read, the ledger is left as it was. *)
Theorem tick_without_data_is_idle (b : MidasBot) (ex : exchange_reply) :
  (length (_ohlcv ex) < 50)%nat \/
  (exists e : exn, fetch_ticker ex = Raise e) \/
  (exists e : exn, fetch_balance ex = Raise e) ->
  log_csv (fst (_tick b ex)) = log_csv b.
Proof.
  intro H. unfold _tick.
  destruct (fees_update_shape b ex) as [f ->].
  unfold _balances_update. cbn [pair set_fees].
  destruct (split_slash EmptyString (pair b) !! 1%nat) as [quote|];
    [|reflexivity].
  unfold _price.
  destruct (_regime (_ohlcv ex)) as [r|e] eqn:Er.
  2:{ destruct (fetch_balance ex), (fetch_ticker ex) as [[? ?]|?];
        reflexivity. }
  destruct H as [Hlen|[[e He]|[e He]]].
  - unfold _regime in Er.
    destruct (Nat.ltb_spec (length (_ohlcv ex)) 50) as [_|?]; [|lia].
    injection Er as <-.
    destruct (fetch_balance ex), (fetch_ticker ex) as [[? ?]|?]; reflexivity.
  - rewrite He.
    destruct (fetch_balance ex); cbn;
      rewrite !orb_true_r; reflexivity.
  - rewrite He.
    destruct (fetch_ticker ex) as [[last cl]|e']; cbn;
      destruct (bool_decide (r = SCOUT)); reflexivity.
Qed.

Lemma tick_without_data_is_idle_witness :
  log_csv (fst (_tick default_bot fee_reply)) = log_csv default_bot.
Proof.
  apply (tick_without_data_is_idle default_bot fee_reply).
  left. cbn. lia.
Defined.

(** ** The ledger and the settings over the whole run *)

Lemma loop_body_log (b : MidasBot) (c : cycle) :
  log_csv b `prefix_of` log_csv (fst (loop_body b c)) /\
  same_settings b (set_stop_flag (fst (loop_body b c)) (stop_flag b)).
Proof.
  assert (Hlog : log_csv b `prefix_of` log_csv (guarded_tick b (reply c))).
  { rewrite guarded_tick_log.
    destruct (tick_log b (reply c)) as (b4 & r & price & rows & -> & _ & Hl & _).
    cbn. rewrite Hl. now exists rows. }
  destruct (guarded_tick_settings b (reply c))
    as (H1 & H2 & H3 & H4 & H5 & H6 & H7 & H8).
  destruct (loop_body_state b c) as [-> | ->];
    (split; [exact Hlog | repeat split; assumption]).
Qed.

Lemma run_loop_cons_fst (b : MidasBot) (c : cycle) (rest : list cycle) :
  stop_flag b = false ->
  fst (_run_loop b (c :: rest)) = fst (loop_body b c) \/
  fst (_run_loop b (c :: rest)) = fst (_run_loop (fst (loop_body b c)) rest).
Proof.
  intro Hb. destruct (snd (loop_body b c)) as [e|] eqn:E.
  - left. now rewrite (run_loop_raise b c rest e).
  - right. now rewrite run_loop_step.
Qed.

(** Over any run of the loop the ledger only grows at its end: the rows
    present at the start stay, in place and unchanged, and budget, levels,
    spacing, minimum net step, pair and mode stay as set at start-up. *)
Theorem run_loop_ledger_grows (cycles : list cycle) (b : MidasBot) :
  log_csv b `prefix_of` log_csv (fst (_run_loop b cycles)) /\
  same_settings b (set_stop_flag (fst (_run_loop b cycles)) (stop_flag b)).
Proof.
  revert b. induction cycles as [|c rest IH]; intro b.
  - cbn [_run_loop]. destruct (stop_flag b) eqn:E; cbn [fst];
      (split; [reflexivity
              | unfold same_settings; cbn; repeat split; congruence]).
  - destruct (stop_flag b) eqn:E.
    + rewrite run_loop_stopped by assumption. cbn [fst].
      split; [reflexivity
             | unfold same_settings; cbn; repeat split; congruence].
    + destruct (loop_body_log b c) as [Hp Hs].
      destruct (run_loop_cons_fst b c rest E) as [-> | ->];
        [rewrite E in Hs; split; assumption|].
      destruct (IH (fst (loop_body b c))) as [Hp' Hs'].
      split; [etrans; eassumption|].
      destruct Hs as (H1 & H2 & H3 & H4 & H5 & H6 & H7 & _).
      destruct Hs' as (G1 & G2 & G3 & G4 & G5 & G6 & G7 & _).
      unfold same_settings. cbn in *. repeat split; congruence.
Qed.

(** With a tick of 9223372037 seconds or more and the stop flag down, the
    first cycle runs, guarded as ever, and the sleep after it raises: the
    loop ends there on an overflow error with the stop flag still down,
    whatever wake-ups would have followed. *)
Theorem run_loop_sleep_overflow (b : MidasBot) (c : cycle)
    (rest : list cycle) :
  stop_flag b = false -> (9223372037 <= tick b)%Z ->
  _run_loop b (c :: rest)
    = (guarded_tick b (reply c), (1%nat, Some OverflowError)) /\
  stop_flag (guarded_tick b (reply c)) = false.
Proof.
  intros Hb Ht.
  destruct (guarded_tick_settings b (reply c))
    as (_ & _ & _ & _ & _ & _ & Hk & Hf).
  assert (Hbody : loop_body b c
                  = (guarded_tick b (reply c), Some OverflowError)).
  { unfold loop_body. cbv zeta. now rewrite sleep_raises by lia. }
  split; [|congruence].
  rewrite (run_loop_raise b c rest OverflowError) by
    (assumption || now rewrite Hbody).
  now rewrite Hbody.
Qed.

Lemma run_loop_sleep_overflow_witness :
  _run_loop long_tick_bot [Cycle steady_reply false; Cycle steady_reply true]
    = (guarded_tick long_tick_bot steady_reply, (1%nat, Some OverflowError)) /\
  stop_flag (guarded_tick long_tick_bot steady_reply) = false.
Proof.
  apply (run_loop_sleep_overflow long_tick_bot (Cycle steady_reply false)
           [Cycle steady_reply true]).
  - reflexivity.
  - vm_compute. discriminate.
Defined.

(** ** The fee cache *)

Lemma init_fee_keys (pr : string) (pp : bool) (bu : Q) (g : Z) (sp mn : Q)
    (tk : Z) (manual : option (gmap string Q)) :
  fee_keys_ok (fees (__init__ pr pp bu g sp mn tk manual)).
Proof.
  unfold fee_keys_ok. cbn [fees __init__].
  destruct manual as [m|].
  - repeat split.
    + apply lookup_union_is_Some. right. now eexists.
    + apply lookup_union_is_Some. right. now eexists.
    + apply lookup_union_None. split; [|reflexivity].
      apply map_lookup_filter_None. right. intros v _. cbn. discriminate.
  - repeat split; now eexists.
Qed.

Lemma fees_update_keys (b : MidasBot) (ex : exchange_reply) :
  fee_keys_ok (fees b) -> fee_keys_ok (fees (_fees_update b ex)).
Proof.
  intros (Hm & Ht & Hn). unfold _fees_update.
  destruct (bool_decide (is_Some (fees b !! "manual"%string)));
    [repeat split; assumption|].
  destruct (fetch_trading_fee ex) as [f|_].
  - cbn [fees set_fees]. repeat split; now eexists.
  - destruct (market ex) as [mkt|_]; [|repeat split; assumption].
    cbn [fees set_fees]. repeat split.
    + rewrite lookup_insert_ne by discriminate.
      rewrite lookup_insert. now eexists.
    + rewrite lookup_insert. now eexists.
    + rewrite !lookup_insert_ne by discriminate. assumption.
Qed.

Lemma tick_fees (b : MidasBot) (ex : exchange_reply) :
  fees (fst (_tick b ex)) = fees (_fees_update b ex).
Proof.
  unfold _tick.
  destruct (fees_update_shape b ex) as [f ->].
  destruct (balances_update_shape (set_fees b f) ex) as [[v ->]| ->];
    [|reflexivity].
  destruct (price_shape (set_balance_quote (set_fees b f) v) ex)
    as (m & p & ->).
  destruct (_regime (_ohlcv ex)) as [r|e]; [|reflexivity].
  match goal with
  | |- context [if ?c then _ else _] => destruct c
  end; [reflexivity|].
  match goal with
  | |- context [exec_orders ?b4 ex r ?os] =>
      destruct (exec_orders_log ex r os b4) as (rows & -> & _)
  end.
  reflexivity.
Qed.

Lemma loop_body_fees (b : MidasBot) (c : cycle) :
  fees (fst (loop_body b c)) = fees (_fees_update b (reply c)).
Proof.
  rewrite <- tick_fees.
  assert (H : fees (guarded_tick b (reply c)) = fees (fst (_tick b (reply c)))).
  { unfold guarded_tick. now destruct (_tick b (reply c)) as [b' [e|]]. }
  destruct (loop_body_state b c) as [-> | ->]; exact H.
Qed.

(** However the bot is started and whatever the exchange answers, the fee
    cache always holds a maker and a taker rate and never a ["manual"] key:
    reading [self.fees["maker"]] cannot fail, and the guard of the refresh
    never holds. *)
Theorem fee_keys_kept (pr : string) (pp : bool) (bu : Q) (g : Z) (sp mn : Q)
    (tk : Z) (manual : option (gmap string Q)) (cycles : list cycle) :
  fee_keys_ok
    (fees (fst (_run_loop (__init__ pr pp bu g sp mn tk manual) cycles))).
Proof.
  pose proof (init_fee_keys pr pp bu g sp mn tk manual) as H.
  generalize dependent (__init__ pr pp bu g sp mn tk manual).
  induction cycles as [|c rest IH]; intros b Hb.
  - cbn. now destruct (stop_flag b).
  - destruct (stop_flag b) eqn:E.
    + now rewrite run_loop_stopped.
    + assert (Hk : fee_keys_ok (fees (fst (loop_body b c)))).
      { rewrite loop_body_fees. now apply fees_update_keys. }
      destruct (run_loop_cons_fst b c rest E) as [-> | ->];
        [exact Hk | now apply IH].
Qed.

(** A refresh answered by the exchange replaces both rates by the quoted
    ones, for any bot whose cache holds no ["manual"] key, whatever they were
    before. *)
Theorem fees_update_takes_quote (b : MidasBot) (ex : exchange_reply)
    (f : gmap string Q) (m t : Q) :
  fees b !! "manual"%string = None ->
  fetch_trading_fee ex = Ok f ->
  f !! "maker"%string = Some m -> f !! "taker"%string = Some t ->
  rate (fees (_fees_update b ex)) "maker" = m /\
  rate (fees (_fees_update b ex)) "taker" = t.
Proof.
  intros Hn Hf Hm Ht. unfold _fees_update.
  rewrite bool_decide_eq_false_2 by (rewrite Hn; apply is_Some_None).
  rewrite Hf, Hm, Ht. cbn [default fees set_fees]. unfold rate. split.
  - now rewrite lookup_insert.
  - rewrite lookup_insert_ne by discriminate. now rewrite lookup_insert.
Qed.

Lemma fees_update_takes_quote_witness :
  rate (fees (_fees_update manual_bot fee_reply)) "maker" = 0.0016 /\
  rate (fees (_fees_update manual_bot fee_reply)) "taker" = 0.0026.
Proof.
  apply (fees_update_takes_quote manual_bot fee_reply
           (<["maker"%string := 0.0016]> (<["taker"%string := 0.0026]> ∅)));
    reflexivity.
Defined.

(** When both fee endpoints fail the cache is left as it was. *)
Theorem fees_update_offline (b : MidasBot) (ex : exchange_reply) (e e' : exn) :
  fetch_trading_fee ex = Raise e -> market ex = Raise e' ->
  _fees_update b ex = b.
Proof.
  intros H1 H2. unfold _fees_update. rewrite H1, H2.
  now destruct (bool_decide (is_Some (fees b !! "manual"%string))).
Qed.

Lemma fees_update_offline_witness :
  _fees_update default_bot steady_reply = default_bot.
Proof.
  apply (fees_update_offline default_bot steady_reply NetworkError
           NetworkError); reflexivity.
Defined.

(** ** Rounding in the planner *)

(** Every order the planner lists is the order of a level whose quantity is
    within 0.000000005 of, and whose price within 0.00005 of, the unrounded
    quantity and price of that level. *)
Theorem plan_grid_rounding (b : MidasBot) (price : Q) (o : order) :
  In o (_plan_grid b price) ->
  exists (sd : order_side) (i : Z),
    (1 <= i <= grids b)%Z /\ fst (fst o) = sd /\
    Qabs (snd (fst o) - candidate_qty b price sd i) <= 0.000000005 /\
    Qabs (snd o - level_price b price sd i) <= 0.00005.
Proof.
  intro Hin.
  destruct (plan_grid_In b price o Hin)
    as (_ & _ & _ & sd & i & Hi & _ & ->).
  exists sd, i. split; [assumption|]. split; [reflexivity|].
  cbn [level_order fst snd]. split.
  - pose proof (round_error (candidate_qty b price sd i) 8) as H.
    assert (E : (1 # 2) / pow10 8 == 0.000000005) by reflexivity.
    rewrite E in H. exact H.
  - pose proof (round_error (level_price b price sd i) 4) as H.
    assert (E : (1 # 2) / pow10 4 == 0.00005) by reflexivity.
    rewrite E in H. exact H.
Qed.

Lemma plan_grid_rounding_witness :
  exists (sd : order_side) (i : Z),
    (1 <= i <= grids default_bot)%Z /\ buy = sd /\
    Qabs (round (6.25 / Qmax 99.5 1e-9) 8 - candidate_qty default_bot 100 sd i)
      <= 0.000000005 /\
    Qabs (round 99.5 4 - level_price default_bot 100 sd i) <= 0.00005.
Proof.
  apply (plan_grid_rounding default_bot 100
           (buy, round (6.25 / Qmax 99.5 1e-9) 8, round 99.5 4)).
  vm_compute. left. reflexivity.
Defined.

(** The list is made of at most two orders per level. *)
Theorem plan_grid_length (b : MidasBot) (price : Q) :
  (Z.of_nat (length (_plan_grid b price)) <= 2 * Z.max 0 (grids b))%Z.
Proof.
  unfold _plan_grid. cbv zeta.
  destruct (Qleb (Qmin (budget_usd b) (balance_quote b)) 0
            || (grids b <=? 0)%Z || Qleb price 0); [cbn; lia|].
  assert (H : forall (l : list nat) (per : Q),
            (length (flat_map (grid_level b price per) l)
             <= 2 * length l)%nat).
  { intros l per. induction l as [|i l IH]; [cbn; lia|].
    cbn [flat_map]. rewrite length_app. unfold grid_level at 1. cbv zeta.
    rewrite length_app.
    repeat match goal with
           | |- context [if ?c then _ else _] => destruct c
           end; cbn [length]; lia. }
  specialize (H (seq 0 (Z.to_nat (grids b)))
                (Qmin (budget_usd b) (balance_quote b) / inject_Z (grids b))).
  rewrite length_seq in H. lia.
Qed.

(** ** Utilities *)

(** With [lo <= hi], [clamp] answers a number of [lo, hi], and [x] itself
    when [x] already lies there; with [lo > hi] it answers [lo]. *)
Theorem clamp_range (x lo hi : Q) :
  (lo <= hi -> lo <= clamp x lo hi <= hi) /\
  (lo <= x <= hi -> clamp x lo hi == x) /\
  (hi < lo -> clamp x lo hi == lo).
Proof.
  unfold clamp.
  pose proof (Q.le_max_l lo (Qmin hi x)).
  pose proof (Q.le_min_l hi x). pose proof (Q.le_min_r hi x).
  split; [|split].
  - intro H2. split; [assumption|].
    apply Q.max_lub; assumption.
  - intros [H2 H3]. rewrite (Q.min_r hi x) by assumption.
    now apply Q.max_r.
  - intro H2. apply Q.max_l. lra.
Qed.

Lemma clamp_range_witness :
  1 <= clamp 7 1 5 <= 5.
Proof.
  apply (proj1 (clamp_range 7 1 5)). vm_compute. discriminate.
Defined.

(** ** The balance refresh *)

Lemma split_slash_nonempty (cur s : string) :
  exists (x : string) (l : list string), split_slash cur s = x :: l.
Proof.
  revert cur. induction s as [|c s IH]; intro cur; cbn.
  - eexists. eexists. reflexivity.
  - destruct (Ascii.eqb c "/"); [eexists; eexists; reflexivity|apply IH].
Qed.

Lemma split_slash_second (cur s : string) :
  split_slash cur s !! 1%nat = None <-> no_slash s = true.
Proof.
  revert cur. induction s as [|c s IH]; intro cur; cbn.
  - tauto.
  - destruct (Ascii.eqb c "/"); cbn.
    + destruct (split_slash_nonempty EmptyString s) as (x & l & ->).
      cbn. split; discriminate.
    + apply IH.
Qed.

(** The balance refresh raises an index error exactly when the pair holds no
    slash, and then leaves the bot as it was; otherwise it never raises, and
    a failed balance fetch sets the balance to 0. *)
Theorem balances_update_errors (b : MidasBot) (ex : exchange_reply) :
  (no_slash (pair b) = true ->
   _balances_update b ex = (b, Some IndexError)) /\
  (no_slash (pair b) = false ->
   snd (_balances_update b ex) = None /\
   ((exists e : exn, fetch_balance ex = Raise e) ->
    balance_quote (fst (_balances_update b ex)) = 0)).
Proof.
  unfold _balances_update. split; intro H.
  - apply (split_slash_second EmptyString) in H. now rewrite H.
  - destruct (split_slash EmptyString (pair b) !! 1%nat) as [quote|] eqn:E.
    + destruct (fetch_balance ex) as [free|e]; cbn.
      * split; [reflexivity|]. intros [e He]. discriminate.
      * split; reflexivity.
    + apply split_slash_second in E. congruence.
Qed.

Lemma balances_update_errors_witness :
  _balances_update unsplit_bot steady_reply = (unsplit_bot, Some IndexError).
Proof.
  apply (proj1 (balances_update_errors unsplit_bot steady_reply)).
  reflexivity.
Defined.

(** ** Paper or live *)

(** [main] starts the bot live only when [--confirm] is exactly
    ["I-UNDERSTAND"] and the mode reads "live" in any letter case, the mode
    being the configured one when the configuration names one, else the
    [--live] flag. *)
Theorem main_live_needs_confirmation (cfg_mode : option string) (live : bool)
    (confirm : string) :
  main_paper cfg_mode live confirm = false ->
  confirm = "I-UNDERSTAND"%string /\
  match cfg_mode with
  | Some m => if bool_decide (m = EmptyString) then live = true
              else lower m = "live"%string
  | None => live = true
  end.
Proof.
  unfold main_paper. cbv zeta.
  set (flag_mode := if live then "live"%string else "paper"%string).
  set (chosen := match cfg_mode with
                 | Some m => if bool_decide (m = EmptyString) then flag_mode
                             else m
                 | None => flag_mode
                 end).
  destruct (bool_decide_reflect (lower chosen <> "live"%string)) as [Hne|He];
    cbn [negb andb]; [discriminate|].
  destruct (bool_decide_reflect (confirm <> "I-UNDERSTAND"%string)) as [Hc|Hc];
    [discriminate|].
  intros _. split; [now apply dec_stable|].
  apply dec_stable in He.
  assert (Hflag : lower flag_mode = "live"%string -> live = true).
  { unfold flag_mode. destruct live; [reflexivity|discriminate]. }
  unfold chosen in He. destruct cfg_mode as [m|]; [|now apply Hflag].
  destruct (bool_decide (m = EmptyString)); [now apply Hflag|assumption].
Qed.

Lemma main_live_needs_confirmation_witness :
  "I-UNDERSTAND"%string = "I-UNDERSTAND"%string /\
  lower "Live" = "live"%string.
Proof.
  apply (main_live_needs_confirmation (Some "Live"%string) false
           "I-UNDERSTAND"%string).
  reflexivity.
Defined.

(** ** What the rows of a cycle say *)

Lemma regime_orders_side (b : MidasBot) (r : regime) (price : Q)
    (sd : order_side) (q px : Q) :
  In (sd, q, px) (regime_orders b r price) ->
  (r = AFTERBURNER -> sd = sell) /\ (r = DIP -> sd = buy).
Proof.
  intro H. split; intros ->; cbn [regime_orders] in H;
    apply list_elem_of_In in H; apply list_elem_of_filter in H; tauto.
Qed.

(** Every row a cycle appends carries the regime the cycle has just set as
    its phase, which is never SCOUT, and the bot's pair; the rows of an
    AFTERBURNER cycle are all SHORT and those of a DIP cycle all LONG. *)
Theorem tick_rows_tagged (b : MidasBot) (ex : exchange_reply) :
  exists rows : list trade_record,
    log_csv (fst (_tick b ex)) = log_csv b ++ rows /\
    Forall (fun row =>
              bot row = phase (fst (_tick b ex)) /\ bot row <> SCOUT /\
              symbol row = pair b /\
              (bot row = AFTERBURNER -> side row = SHORT) /\
              (bot row = DIP -> side row = LONG))
           rows.
Proof.
  unfold _tick.
  destruct (fees_update_shape b ex) as [f ->].
  destruct (balances_update_shape (set_fees b f) ex) as [[v ->]| ->].
  2:{ exists []. cbn. rewrite app_nil_r. split; [reflexivity|constructor]. }
  destruct (price_shape (set_balance_quote (set_fees b f) v) ex)
    as (m & p & ->).
  destruct (_regime (_ohlcv ex)) as [r|e].
  2:{ exists []. cbn. rewrite app_nil_r. split; [reflexivity|constructor]. }
  match goal with
  | |- context [if ?c then _ else _] => destruct c eqn:Hguard
  end.
  { exists []. cbn. rewrite app_nil_r. split; [reflexivity|constructor]. }
  apply orb_false_iff in Hguard. destruct Hguard as [Hguard _].
  apply orb_false_iff in Hguard. destruct Hguard as [Hscout _].
  apply bool_decide_eq_false in Hscout.
  match goal with
  | |- context [exec_orders ?b4 ex r ?os] =>
      destruct (exec_orders_rows ex r os b4) as (rows & -> & HF)
  end.
  exists rows. split; [reflexivity|].
  eapply Forall_impl; [exact HF|].
  intros row (sd & q & px & Hin & Hfill). cbn [phase fst set_log_csv].
  apply In_take in Hin. apply regime_orders_side in Hin.
  destruct Hin as [Hab Hdip].
  destruct (paper_fill_row _ _ _ _ _ _ Hfill)
    as (_ & Hbot & Hsym & _ & _ & Hside & _).
  rewrite Hbot, Hsym, Hside.
  split; [reflexivity|]. split; [assumption|]. split; [reflexivity|].
  split; intro Hr; [rewrite (Hab Hr)|rewrite (Hdip Hr)]; reflexivity.
Qed.

(** ** Pair mapping *)

Lemma replace_usd_no_slash (base tail : string) :
  no_slash base = true ->
  replace_usd (base +:+ tail) = base +:+ replace_usd tail.
Proof.
  induction base as [|c base IH]; intro H; [reflexivity|].
  cbn [no_slash] in H. apply andb_true_iff in H. destruct H as [Hc Hb].
  change (String c base +:+ tail) with (String c (base +:+ tail)).
  change (String c base +:+ replace_usd tail)
    with (String c (base +:+ replace_usd tail)).
  rewrite <- (IH Hb).
  destruct (Ascii.eqb_spec c "/") as [->|Hne]; [discriminate|].
  destruct c as [[] [] [] [] [] [] [] []]; try reflexivity.
  now contradiction Hne.
Qed.

Lemma ends_with_app (base suf : string) : ends_with suf (base +:+ suf) = true.
Proof.
  induction base as [|c base IH].
  - change (EmptyString +:+ suf) with suf.
    destruct suf; cbn [ends_with]; now rewrite String.eqb_refl.
  - change (String c base +:+ suf) with (String c (base +:+ suf)).
    cbn [ends_with]. rewrite IH. apply orb_true_r.
Qed.

(** [resolve_pair] gives back the pair itself whenever the exchange lists
    it, and never a pair other than its argument that the exchange does not
    list; a pair BASE/USD with no slash in BASE that the exchange does not
    list becomes BASE/USDT when the exchange lists that. *)
Theorem resolve_pair_listed (listed : string -> bool) (pair : string) :
  (listed pair = true -> resolve_pair listed pair = pair) /\
  (resolve_pair listed pair <> pair ->
   listed (resolve_pair listed pair) = true) /\
  (forall base : string,
     pair = base +:+ "/USD" -> no_slash base = true ->
     listed pair = false -> listed (base +:+ "/USDT") = true ->
     resolve_pair listed pair = base +:+ "/USDT").
Proof.
  unfold resolve_pair. split; [|split].
  - now intros ->.
  - destruct (listed pair); [congruence|].
    destruct (ends_with "/USD" pair); [|congruence].
    cbv zeta. destruct (listed (replace_usd pair)) eqn:E; congruence.
  - intros base -> Hb Hl Ha. rewrite Hl, ends_with_app. cbv zeta.
    rewrite (replace_usd_no_slash base "/USD" Hb).
    change (replace_usd "/USD") with "/USDT"%string.
    now rewrite Ha.
Qed.

Lemma resolve_pair_listed_witness :
  resolve_pair (fun p => String.eqb p "BTC/USDT") "BTC/USD" = "BTC/USDT"%string.
Proof.
  apply (proj2 (proj2 (resolve_pair_listed
                         (fun p => String.eqb p "BTC/USDT") "BTC/USD"))
           "BTC"%string); reflexivity.
Defined.
